(** * Sales data analysis dashboard: the data pipeline of [sales_analysis.py]

    The script is one linear run: generate -> save -> load -> clean ->
    aggregate.  Each stage is embedded as a function over lists of records.

    Numbers.  pandas holds [quantity] (after the NaN injection), [revenue]
    and the cleaned [unit_price] in float64 columns and the cleaned
    [quantity] in an int64 column.  The embedding computes with exact
    rationals ([Q]) and unbounded integers ([Z]): NaN is [None], and every
    value is taken to lie in the range where float64 and int64 are exact,
    as all values of the script do (quantities 1..5, prices below 1000).
    The one place where float64 rounding shows is the spacing of the dates
    (line 32), which goes beyond 2^53 nanoseconds: there the float64
    operations are modelled as such ([Float64]). *)

From Stdlib Require Import ZArith QArith Qround Lia Lqa Bool.
From Stdlib Require Import Ascii String DecimalString DecimalPos DecimalZ.
From Stdlib Require Import List Permutation Sorted Orders Mergesort.
From Stdlib Require Import Floats.SpecFloat.
Import ListNotations.

#[local] Open Scope Q_scope.

(** ** Errors and results *)

(** [astype(int)] on a column that still holds NaN raises pandas'
    [IntCastingNaNError], a [ValueError]: "Cannot convert non-finite values
    (NA or inf) to integer".  Nothing in the script catches it. *)
Inductive error : Type :=
| IntCastingNaNError.

Inductive result (A : Type) : Type :=
| Ok (a : A)
| Raise (e : error).
Arguments Ok {A} a.
Arguments Raise {A} e.

(** The classes an exception is an instance of (its method resolution
    order), and its message.  [pandas.errors.IntCastingNaNError] derives
    from [ValueError]. *)
Definition error_mro (e : error) : list string :=
  match e with
  | IntCastingNaNError =>
      ["IntCastingNaNError"; "ValueError"; "Exception"; "BaseException";
       "object"]%string
  end.

Definition error_message (e : error) : string :=
  match e with
  | IntCastingNaNError =>
      "Cannot convert non-finite values (NA or inf) to integer"%string
  end.

(** [isinstance(e, cls)], by class name. *)
Definition is_instance (e : error) (cls : string) : bool :=
  existsb (String.eqb cls) (error_mro e).

(** ** The catalogue, lines 17-28 *)

Module Catalogue.

#[local] Open Scope string_scope.
#[local] Open Scope Z_scope.

Definition products : list string :=
  ["Laptop"; "Wireless Mouse"; "USB-C Hub"; "Mechanical Keyboard";
   "Monitor"; "Webcam"; "Headphones"; "Desk Lamp"; "SSD Drive";
   "Phone Stand"].

Definition prices : list (string * Z) :=
  [("Laptop", 999); ("Wireless Mouse", 29); ("USB-C Hub", 45);
   ("Mechanical Keyboard", 89); ("Monitor", 349); ("Webcam", 79);
   ("Headphones", 149); ("Desk Lamp", 35); ("SSD Drive", 119);
   ("Phone Stand", 19)].

(** [prices[p]]; [None] is Python's [KeyError]. *)
Fixpoint lookup (table : list (string * Z)) (p : string) : option Z :=
  match table with
  | [] => None
  | (k, v) :: rest => if String.eqb k p then Some v else lookup rest p
  end.

End Catalogue.

(** ** Calendar arithmetic of datetime64

    A timestamp is a count of nanoseconds since 1970-01-01T00:00, also
    where pandas holds the column in microseconds (the instant is the
    same, and then a whole number of microseconds).  pandas
    breaks it into calendar fields with the proleptic Gregorian rules of
    numpy's [np_datetime.c]; the same fields are needed for the month of a
    row (line 87) and for the text of a date in the dataset file. *)

Module Calendar.

#[local] Open Scope Z_scope.

Definition ns_per_second : Z := 1000000000.
Definition ns_per_day : Z := 86400 * ns_per_second.

Definition is_leapyear (y : Z) : bool :=
  (y mod 4 =? 0) && (negb (y mod 100 =? 0) || (y mod 400 =? 0)).

Definition days_per_month (leap : bool) : list Z :=
  [31; if leap then 29 else 28; 31; 30; 31; 30; 31; 31; 30; 31; 30; 31].

(** Year and zero-based day of the year of a day count, by the 400, 100, 4
    and 1 year cycles counted from 2000-01-01. *)
Definition days_to_yearsdays (days : Z) : Z * Z :=
  let d0 := days - (365 * 30 + 7) in
  let y400 := 2000 + 400 * (d0 / 146097) in
  let d1 := d0 mod 146097 in
  if d1 <? 366 then (y400, d1)
  else
    let y100 := y400 + 100 * ((d1 - 1) / 36524) in
    let d2 := (d1 - 1) mod 36524 in
    if d2 <? 365 then (y100, d2)
    else
      let y4 := y100 + 4 * ((d2 + 1) / 1461) in
      let d3 := (d2 + 1) mod 1461 in
      if d3 <? 366 then (y4, d3)
      else (y4 + (d3 - 1) / 365, (d3 - 1) mod 365).

(** Walk the month lengths: month number and day of the month. *)
Fixpoint month_day (lengths : list Z) (m doy : Z) : Z * Z :=
  match lengths with
  | [] => (m, doy + 1)
  | len :: rest =>
      if doy <? len then (m, doy + 1) else month_day rest (m + 1) (doy - len)
  end.

Definition civil_from_days (days : Z) : Z * Z * Z :=
  let '(y, doy) := days_to_yearsdays days in
  let '(m, d) := month_day (days_per_month (is_leapyear y)) 1 doy in
  (y, m, d).

Definition sumZ (l : list Z) : Z := fold_right Z.add 0 l.

Definition days_before_year (y : Z) : Z :=
  365 * (y - 1970) + ((y - 1) / 4 - (y - 1) / 100 + (y - 1) / 400) - 477.

Definition days_from_civil (y m d : Z) : Z :=
  days_before_year y
  + sumZ (firstn (Z.to_nat (m - 1)) (days_per_month (is_leapyear y)))
  + (d - 1).

Definition days_in_month (y m : Z) : Z :=
  nth (Z.to_nat (m - 1)) (days_per_month (is_leapyear y)) 0.

(** [Series.dt.to_period("M")]: a monthly period is the number of months
    since January 1970. *)
Definition to_period_M (t : Z) : Z :=
  let '(y, m, _) := civil_from_days (t / ns_per_day) in
  (y - 1970) * 12 + (m - 1).

End Calendar.

(** ** The data frame of the cleaning and analysis stages *)

Module Cleaner.

(** One row of [df].  [date] is a datetime64 value (nanoseconds since
    1970-01-01), [quantity] a float64 cell ([None] is NaN), [revenue] is
    [None] until line 77 derives the column. *)
Record Row : Type := mkRow {
  date : Z;
  product : string;
  quantity : option Q;
  unit_price : Q;
  revenue : option Q
}.

Definition DataFrame : Type := list Row.

Definition set_quantity (q : option Q) (r : Row) : Row :=
  mkRow (date r) (product r) q (unit_price r) (revenue r).

Definition set_revenue (v : option Q) (r : Row) : Row :=
  mkRow (date r) (product r) (quantity r) (unit_price r) v.

(** *** [Series.median] *)

Lemma Qle_bool_total (a b : Q) : Qle_bool a b = true \/ Qle_bool b a = true.
Proof.
  destruct (Qlt_le_dec a b) as [H | H].
  - left. apply Qle_bool_iff. now apply Qlt_le_weak.
  - right. now apply Qle_bool_iff.
Qed.

Module QOrder <: TotalLeBool.
Definition t : Type := Q.
Definition leb : Q -> Q -> bool := Qle_bool.
Definition leb_total : forall a b, leb a b = true \/ leb b a = true :=
  Qle_bool_total.
End QOrder.

Module QSort := Sort QOrder.

(** The values of a column that are not NaN ([skipna=True]). *)
Fixpoint dropna (col : list (option Q)) : list Q :=
  match col with
  | [] => []
  | Some q :: rest => q :: dropna rest
  | None :: rest => dropna rest
  end.

(** [col.median()]: NaN cells are skipped; the median of no value is NaN;
    for an odd count it is the middle value of the sorted values, for an
    even count the mean of the two middle ones. *)
Definition median (col : list (option Q)) : option Q :=
  let s := QSort.sort (dropna col) in
  let n := List.length s in
  if (n =? 0)%nat then None
  else if Nat.odd n then Some (nth (n / 2) s 0)
  else Some ((nth (n / 2 - 1) s 0 + nth (n / 2) s 0) / 2).

(** [col.fillna(v)] on one cell. *)
Definition fillna (v : option Q) (cell : option Q) : option Q :=
  match cell with
  | Some q => Some q
  | None => v
  end.

(** *** Lines 66-68: [groupby("product")["quantity"].transform(...)] *)

(** The [quantity] sub-series of the group of product [p], in row order. *)
Definition group_quantity (df : DataFrame) (p : string) : list (option Q) :=
  map quantity (filter (fun r => String.eqb (product r) p) df).

(** [transform] applies the lambda to every group and puts the results back
    at the rows' own positions. *)
Definition fill_row (df : DataFrame) (r : Row) : Row :=
  set_quantity (fillna (median (group_quantity df (product r))) (quantity r)) r.

Definition fill_missing (df : DataFrame) : DataFrame := map (fill_row df) df.

(** [df.isnull().sum()] for the [quantity] column (lines 63 and 70). *)
Definition missing_count (df : DataFrame) : nat :=
  List.length (filter (fun r => match quantity r with
                                | None => true
                                | Some _ => false
                                end) df).

(** *** Line 73: [astype(int)] *)

(** A float64 to int64 cast drops the fractional part (rounds toward
    zero). *)
Definition trunc (q : Q) : Z := Z.quot (Qnum q) (Zpos (Qden q)).

Definition cast_row (r : Row) : Row :=
  set_quantity (match quantity r with
                | Some q => Some (inject_Z (trunc q))
                | None => None
                end) r.

(** The cast of the whole column raises as soon as one cell is NaN. *)
Fixpoint astype_int (df : DataFrame) : result DataFrame :=
  match df with
  | [] => Ok []
  | r :: rest =>
      match quantity r with
      | None => Raise IntCastingNaNError
      | Some q =>
          match astype_int rest with
          | Ok rest' =>
              Ok (set_quantity (Some (inject_Z (trunc q))) r :: rest')
          | Raise e => Raise e
          end
      end
  end.

(** *** Line 77: [df["revenue"] = df["quantity"] * df["unit_price"]] *)

Definition revenue_row (r : Row) : Row :=
  set_revenue (match quantity r with
               | Some q => Some (q * unit_price r)
               | None => None
               end) r.

Definition add_revenue (df : DataFrame) : DataFrame := map revenue_row df.

(** *** The cleaning section, lines 66-77.

    Line 74, [astype(float)] on [unit_price], changes the dtype and not the
    value: it is the identity on [Q]. *)
Definition clean (df : DataFrame) : result DataFrame :=
  match astype_int (fill_missing df) with
  | Ok df' => Ok (add_revenue df')
  | Raise e => Raise e
  end.

(** The policy the specification words: round to nearest, ties up. *)
Definition round_half_up (q : Q) : Z := Qfloor (q + (1 # 2)).

(** A row as the cleaner leaves it: a whole quantity and the revenue
    derived from it. *)
Definition cleaned_row (r : Row) : Prop :=
  exists z : Z,
    quantity r = Some (inject_Z z)
    /\ revenue r = Some (inject_Z z * unit_price r).

Definition already_cleaned (df : DataFrame) : Prop := Forall cleaned_row df.

End Cleaner.


(** ** The analysis stage, lines 83-104 *)

Module Aggregator.

Import Cleaner.

(** [Series.sum] skips NaN cells. *)
Definition revenue_value (r : Row) : Q :=
  match revenue r with
  | Some v => v
  | None => 0
  end.

Definition sumQ (l : list Q) : Q := fold_right Qplus 0 l.

(** Line 83: [df["revenue"].sum()]. *)
Definition total_revenue (df : DataFrame) : Q := sumQ (map revenue_value df).

(** [df.groupby(key)["revenue"].sum()]: one entry per distinct key, in
    ascending key order, holding the sum of the revenue of the rows with
    that key. *)
Section GroupBy.

Variable K : Type.
Variable eq_dec : forall a b : K, {a = b} + {a <> b}.
Variable sort : list K -> list K.
Variable key : Row -> K.

Definition group_keys (df : DataFrame) : list K :=
  sort (nodup eq_dec (map key df)).

Definition in_group (k : K) (r : Row) : bool :=
  if eq_dec (key r) k then true else false.

Definition group_sum (df : DataFrame) (k : K) : Q :=
  sumQ (map revenue_value (filter (in_group k) df)).

Definition groupby_sum (df : DataFrame) : list (K * Q) :=
  map (fun k => (k, group_sum df k)) (group_keys df).

End GroupBy.

Lemma Zleb_total (a b : Z) : (a <=? b)%Z = true \/ (b <=? a)%Z = true.
Proof. rewrite !Z.leb_le. lia. Qed.

Module ZOrder <: TotalLeBool.
Definition t : Type := Z.
Definition leb : Z -> Z -> bool := Z.leb.
Definition leb_total : forall a b, leb a b = true \/ leb b a = true :=
  Zleb_total.
End ZOrder.

Module ZSort := Sort ZOrder.

Module StringOrder <: TotalLeBool.
Definition t : Type := string.
Definition leb : string -> string -> bool := String.leb.
Definition leb_total : forall a b, leb a b = true \/ leb b a = true :=
  String.leb_total.
End StringOrder.

Module StringSort := Sort StringOrder.

(** Lines 87-92: [monthly_revenue], one entry per calendar month present,
    in chronological order. *)
Definition month (r : Row) : Z := Calendar.to_period_M (date r).

Definition monthly_revenue (df : DataFrame) : list (Z * Q) :=
  groupby_sum Z Z.eq_dec ZSort.sort month df.

(** Lines 98-104: [top_products]. *)

(** numpy's default sort on an array of at most 16 entries (the ten
    products of the catalogue give no more) is an insertion sort: an entry
    moves left past the strictly larger ones only, so equal values keep
    their order.  On longer arrays the partition step does not keep the
    order of equal values, which this model does not follow; no property
    below speaks about the order among equal sums. *)
Fixpoint insert_sorted (x : string * Q) (l : list (string * Q))
  : list (string * Q) :=
  match l with
  | [] => [x]
  | y :: rest =>
      if Qle_bool (snd x) (snd y) then x :: l else y :: insert_sorted x rest
  end.

Definition argsort (s : list (string * Q)) : list (string * Q) :=
  fold_right insert_sorted [] s.

(** [sort_values(ascending=False)] ([nargsort]): the series is reversed,
    sorted in ascending order, and the result reversed again, so that
    entries with equal sums stay in the order of the group keys. *)
Definition sort_values_desc (s : list (string * Q)) : list (string * Q) :=
  rev (argsort (rev s)).

Definition head {A : Type} (k : nat) (l : list A) : list A := firstn k l.

Definition top_products (df : DataFrame) : list (string * Q) :=
  head 5 (sort_values_desc
            (groupby_sum string string_dec StringSort.sort product df)).

(** The distinct products present in a frame. *)
Definition distinct_products (df : DataFrame) : list string :=
  nodup string_dec (map product df).

End Aggregator.

(** ** The dataset file, lines 49-56

    [df_raw] and the freshly loaded [df] have four columns: [date]
    (datetime64), [product] (str), [quantity] (float64 since the NaN
    injection of line 46; its values are the whole numbers drawn by
    [randint], or NaN) and [unit_price] (int64).  The file is modelled as
    its list of lines. *)

Module Csv.

Import Calendar.
#[local] Open Scope string_scope.
#[local] Open Scope Z_scope.

Record RawRow : Type := mkRawRow {
  raw_date : Z;
  raw_product : string;
  raw_quantity : option Z;
  raw_unit_price : Z
}.

(** A step that may fail, inside [option]. *)
#[local] Notation "'get' x 'from' a 'in' b" :=
  (match a with
   | Some x => b
   | None => None
   end) (at level 10, x name, a at level 100, b at level 200).

(** *** Numbers as text *)

(** [str] of an int64 cell. *)
Definition string_of_Z (z : Z) : string := NilZero.string_of_int (Z.to_int z).

Definition Z_of_string (s : string) : option Z :=
  option_map Z.of_int (NilZero.int_of_string s).

(** [repr] of a float64 cell holding the whole number [z] (below 10^16 in
    magnitude, where Python prints no exponent). *)
Definition string_of_whole_float (z : Z) : string := string_of_Z z ++ ".0".

Fixpoint split_at_dot (s : string) : string * option string :=
  match s with
  | EmptyString => (EmptyString, None)
  | String c rest =>
      if Ascii.eqb c "." then (EmptyString, Some rest)
      else let (a, b) := split_at_dot rest in (String c a, b)
  end.

Fixpoint all_zero (s : string) : bool :=
  match s with
  | EmptyString => true
  | String c rest => Ascii.eqb c "0" && all_zero rest
  end.

(** A float literal whose value is a whole number: an integer, optionally
    followed by a point and zeros.  [RawRow] has no value for any other
    float, and the file the script writes holds none. *)
Definition whole_float_of_string (s : string) : option Z :=
  let (ip, fp) := split_at_dot s in
  match fp with
  | None => Z_of_string ip
  | Some f => if all_zero f then Z_of_string ip else None
  end.

Definition digit (d : Z) : ascii := ascii_of_N (Z.to_N (48 + d)).

Definition digit_value (c : ascii) : option Z :=
  let k := Z.of_N (N_of_ascii c) in
  if (48 <=? k) && (k <=? 57) then Some (k - 48) else None.

Definition is_digit (c : ascii) : bool :=
  match digit_value c with
  | Some _ => true
  | None => false
  end.

Fixpoint all_chars (P : ascii -> bool) (s : string) : bool :=
  match s with
  | EmptyString => true
  | String c rest => P c && all_chars P rest
  end.

(** [f"{v:0kd}"] for [0 <= v < 10^k]: exactly [k] digits. *)
Fixpoint fixed_acc (k : nat) (v : Z) (tail : string) : string :=
  match k with
  | O => tail
  | S k' => fixed_acc k' (v / 10) (String (digit (v mod 10)) tail)
  end.

Definition fixed (k : nat) (v : Z) : string := fixed_acc k v EmptyString.

Fixpoint number_from (acc : Z) (s : string) : option Z :=
  match s with
  | EmptyString => Some acc
  | String c rest =>
      get d from digit_value c in number_from (10 * acc + d) rest
  end.

Definition number (s : string) : option Z :=
  match s with
  | EmptyString => None
  | _ => number_from 0 s
  end.

(** *** Dates as text *)

(** The text of a datetime64 column is chosen for the whole column
    ([DatetimeArray._format_native_types]): the date alone when every value
    is a midnight, else date and time with as many fractional digits as the
    finest value needs. *)
Inductive resolution : Type :=
| ResDay | ResSecond | ResMilli | ResMicro | ResNano.

Definition multiple_of (k : Z) (t : Z) : bool := t mod k =? 0.

Definition get_resolution (values : list Z) : resolution :=
  if forallb (multiple_of ns_per_day) values then ResDay
  else if negb (forallb (multiple_of 1000) values) then ResNano
  else if negb (forallb (multiple_of 1000000) values) then ResMicro
  else if negb (forallb (multiple_of 1000000000) values) then ResMilli
  else ResSecond.

Definition format_day (days : Z) : string :=
  let '(y, m, d) := civil_from_days days in
  string_of_Z y ++ "-" ++ fixed 2 m ++ "-" ++ fixed 2 d.

Definition format_time (rem : Z) : string :=
  let secs := rem / ns_per_second in
  fixed 2 (secs / 3600) ++ ":" ++ fixed 2 (secs / 60 mod 60) ++ ":"
    ++ fixed 2 (secs mod 60).

Definition format_date (res : resolution) (t : Z) : string :=
  let days := t / ns_per_day in
  let rem := t mod ns_per_day in
  let ns := rem mod ns_per_second in
  match res with
  | ResDay => format_day days
  | ResSecond => format_day days ++ " " ++ format_time rem
  | ResMilli =>
      format_day days ++ " " ++ format_time rem ++ "." ++ fixed 3 (ns / 1000000)
  | ResMicro =>
      format_day days ++ " " ++ format_time rem ++ "." ++ fixed 6 (ns / 1000)
  | ResNano => format_day days ++ " " ++ format_time rem ++ "." ++ fixed 9 ns
  end.

(** Reading a date back ([parse_dates=["date"]]): the ISO 8601 layout, read
    by position. *)
Definition two_digits (a b : ascii) : option Z :=
  number (String a (String b EmptyString)).

Definition parse_fraction (s : string) : option Z :=
  let k := Z.of_nat (String.length s) in
  if (1 <=? k) && (k <=? 9) then
    get v from number s in Some (v * 10 ^ (9 - k))
  else None.

Definition parse_time (s : string) : option Z :=
  match s with
  | String h1 (String h2 (String c1 (String m1 (String m2
      (String c2 (String s1 (String s2 rest))))))) =>
      if Ascii.eqb c1 ":" && Ascii.eqb c2 ":" then
        get h from two_digits h1 h2 in
        get mi from two_digits m1 m2 in
        get sec from two_digits s1 s2 in
        get f from match rest with
             | EmptyString => Some 0
             | String dot frac =>
                 if Ascii.eqb dot "." then parse_fraction frac else None
             end in
        if (h <? 24) && (mi <? 60) && (sec <? 60) then
          Some (((h * 60 + mi) * 60 + sec) * ns_per_second + f)
        else None
      else None
  | _ => None
  end.

Definition parse_date (s : string) : option Z :=
  match s with
  | String y1 (String y2 (String y3 (String y4 (String c1
      (String m1 (String m2 (String c2 (String d1 (String d2 rest))))))))) =>
      if Ascii.eqb c1 "-" && Ascii.eqb c2 "-" then
        get y from
          number (String y1 (String y2 (String y3 (String y4 EmptyString))))
        in
        get m from two_digits m1 m2 in
        get d from two_digits d1 d2 in
        if (1 <=? m) && (m <=? 12) && (1 <=? d) && (d <=? days_in_month y m)
        then
          let day_ns := days_from_civil y m d * ns_per_day in
          match rest with
          | EmptyString => Some day_ns
          | String sep time =>
              if Ascii.eqb sep " " || Ascii.eqb sep "T" then
                get rem from parse_time time in Some (day_ns + rem)
              else None
          end
        else None
      else None
  | _ => None
  end.

(** *** Lines and fields *)

Fixpoint split (sep : ascii) (s : string) : list string :=
  match s with
  | EmptyString => [EmptyString]
  | String c rest =>
      if Ascii.eqb c sep then EmptyString :: split sep rest
      else
        match split sep rest with
        | f :: fs => String c f :: fs
        | [] => [String c EmptyString]
        end
  end.

Definition header : string := "date,product,quantity,unit_price".

(** The cells pandas reads as missing ([na_values] defaults). *)
Definition na_values : list string :=
  [""; "#N/A"; "#N/A N/A"; "#NA"; "-1.#IND"; "-1.#QNAN"; "-NaN"; "-nan";
   "1.#IND"; "1.#QNAN"; "<NA>"; "N/A"; "NA"; "NULL"; "NaN"; "None"; "n/a";
   "nan"; "null"].

Definition is_na (s : string) : bool := existsb (String.eqb s) na_values.

(** *** Line 50: [df_raw.to_csv(csv_path, index=False)] *)

Definition format_quantity (q : option Z) : string :=
  match q with
  | None => ""
  | Some z => string_of_whole_float z
  end.

(** One data line.  The writer quotes a field only if it holds a comma, a
    quote or a line break; no cell of [df_raw] does, so fields are written
    as they are. *)
Definition to_csv_row (res : resolution) (r : RawRow) : string :=
  String.concat ","
    [format_date res (raw_date r); raw_product r;
     format_quantity (raw_quantity r); string_of_Z (raw_unit_price r)].

Definition to_csv (df : list RawRow) : list string :=
  header :: map (to_csv_row (get_resolution (map raw_date df))) df.

(** *** Line 56: [pd.read_csv(csv_path, parse_dates=["date"])]

    [None] stands for every way the load fails to give the four typed
    columns the later stages rely on. *)
Definition read_quantity (s : string) : option (option Z) :=
  if is_na s then Some None
  else get z from whole_float_of_string s in Some (Some z).

Definition read_csv_row (line : string) : option RawRow :=
  match split "," line with
  | [d; p; q; u] =>
      get t from parse_date d in
      get qty from read_quantity q in
      get price from Z_of_string u in
      if is_na p then None else Some (mkRawRow t p qty price)
  | _ => None
  end.

Fixpoint read_rows (lines : list string) : option (list RawRow) :=
  match lines with
  | [] => Some []
  | l :: rest =>
      get r from read_csv_row l in
      get rs from read_rows rest in
      Some (r :: rs)
  end.

Definition read_csv (lines : list string) : option (list RawRow) :=
  match lines with
  | [] => None
  | h :: rows => if String.eqb h header then read_rows rows else None
  end.

(** *** Classes of characters, and what the proofs ask of a row *)

Definition is_int_char (c : ascii) : bool := is_digit c || Ascii.eqb c "-".

Definition is_number_char (c : ascii) : bool :=
  is_int_char c || Ascii.eqb c ".".

Definition not_char (x c : ascii) : bool := negb (Ascii.eqb c x).

Definition is_date_char (c : ascii) : bool :=
  is_int_char c || Ascii.eqb c " " || Ascii.eqb c ":" || Ascii.eqb c ".".

(** The calendar fields of a day count are well formed, give the day count
    back, and the year prints as four digits. *)
Definition day_ok (days : Z) : bool :=
  let '(y, m, d) := civil_from_days days in
  (1000 <=? y) && (y <=? 9999)
  && (1 <=? m) && (m <=? 12) && (1 <=? d) && (d <=? days_in_month y m)
  && (days_from_civil y m d =? days)
  && String.eqb (string_of_Z y) (fixed 4 y).

Fixpoint day_range (lo : Z) (k : nat) : list Z :=
  match k with
  | O => []
  | S k' => lo :: day_range (lo + 1) k'
  end.

(** The days of 2024, the year the script generates its records in. *)
Definition first_day : Z := days_from_civil 2024 1 1.
Definition last_day : Z := days_from_civil 2024 12 31.

Definition fits (res : resolution) (t : Z) : Prop :=
  match res with
  | ResDay => t mod ns_per_day = 0
  | ResSecond => t mod 1000000000 = 0
  | ResMilli => t mod 1000000 = 0
  | ResMicro => t mod 1000 = 0
  | ResNano => True
  end.

(** A row the file can carry: a day the calendar check covers, and a
    product name that needs no quoting and is not read as missing. *)
Definition csv_safe (r : RawRow) : bool :=
  day_ok (raw_date r / ns_per_day)
  && all_chars (not_char ",") (raw_product r)
  && negb (is_na (raw_product r)).

Definition defined_row (r : RawRow) : Prop :=
  exists q, raw_quantity r = Some q.

(** *** Layouts of fields

    A layout is matched character by character; [#] in it stands for any
    decimal digit. *)
Fixpoint matches (layout s : string) : bool :=
  match layout, s with
  | EmptyString, EmptyString => true
  | String l layout', String c s' =>
      (if Ascii.eqb l "#" then is_digit c else Ascii.eqb l c)
      && matches layout' s'
  | _, _ => false
  end.

Fixpoint hashes (k : nat) : string :=
  match k with
  | O => EmptyString
  | S k' => String "#" (hashes k')
  end.

Definition date_layout : string := "####-##-##".
Definition timestamp_layout (digits : nat) : string :=
  "####-##-## ##:##:##." ++ hashes digits.

Definition is_digits (s : string) : bool :=
  match s with
  | EmptyString => false
  | _ => all_chars is_digit s
  end.

(** A plain integer: an optional minus sign and digits, nothing else. *)
Definition is_plain_integer (s : string) : bool :=
  match s with
  | EmptyString => false
  | String c rest => if Ascii.eqb c "-" then is_digits rest else is_digits s
  end.

(** A data line as the specification words it: four fields, the date as
    [YYYY-MM-DD], the quantity empty or a plain integer. *)
Definition spec_row_layout (line : string) : Prop :=
  exists d p q c,
    split "," line = [d; p; q; c]
    /\ matches date_layout d = true
    /\ (q = EmptyString \/ is_plain_integer q = true).

End Csv.

(** ** float64 arithmetic, as numpy does it

    [np.linspace] computes in IEEE 754 binary64 with round to nearest, ties
    to even, whatever the dtype asked for; the operations are those of the
    Standard Library's [SpecFloat] at precision 53. *)

Module Float64.

#[local] Open Scope Z_scope.

Definition prec : Z := 53.
Definition emax : Z := 1024.

Definition float64 : Type := spec_float.

(** An int64 converted to float64 (rounded when it has more than 53
    significant bits). *)
Definition of_int (z : Z) : float64 := binary_normalize prec emax z 0 false.

Definition mul (x y : float64) : float64 := SFmul prec emax x y.
Definition div (x y : float64) : float64 := SFdiv prec emax x y.

Definition is_zero (x : float64) : bool :=
  match x with
  | S754_zero _ => true
  | _ => false
  end.

(** [np.floor] followed by [astype("int64")].  The cast of NaN or of an
    infinity is left to the platform by numpy (x86-64 gives the least
    int64, written here); [linspace] on int64 end points reaches neither. *)
Definition floor (x : float64) : Z :=
  match x with
  | S754_zero _ => 0
  | S754_finite s m e =>
      let v := if s then Z.neg m else Z.pos m in
      if 0 <=? e then v * 2 ^ e else v / 2 ^ (- e)
  | S754_infinity _ | S754_nan => - 2 ^ 63
  end.

(** [np.linspace(0, stop, num, dtype="int64")] ([function_base.py]):
    [y = arange(0, num) * step] with [step = stop / (num - 1)], the last
    entry then set to [stop], everything floored and cast.  When [step]
    underflows to zero numpy divides first and multiplies after, and for a
    single point it multiplies by [stop] itself.  Adding the start [0.0]
    changes no value. *)
Definition linspace (stop : Z) (num : nat) : list Z :=
  let d := Z.of_nat num - 1 in
  let delta := of_int stop in
  let step := div delta (of_int d) in
  map (fun i =>
         let y := of_int (Z.of_nat i) in
         floor (if 0 <? d then
                  if Z.of_nat i =? d then delta
                  else if is_zero step then mul (div y (of_int d)) delta
                  else mul y step
                else mul y delta))
      (seq 0 num).

End Float64.

(** ** The generator, lines 14-46

    The pseudo-random draws of numpy are inputs of the model: one record
    holds what the three calls returned. *)

Module Generator.

Import Catalogue Calendar Csv.
#[local] Open Scope string_scope.
#[local] Open Scope Z_scope.

Definition n : nat := 500.

(** [int(n * 0.05)]. *)
Definition missing_size : nat :=
  Z.to_nat (Cleaner.trunc (inject_Z (Z.of_nat n) * (5 # 100))).

Definition start : Z := days_from_civil 2024 1 1 * ns_per_day.
Definition stop : Z := days_from_civil 2024 12 31 * ns_per_day.

(** The unit [pd.date_range] counts in when the call names none (line 32
    names none): nanoseconds up to pandas 2, microseconds from pandas 3,
    which takes the unit the two date strings are read at.  The script
    pins no version of pandas, so the unit is a parameter of the
    generator. *)
Inductive time_unit : Type :=
| unit_ns
| unit_us.

Definition ns_per_tick (u : time_unit) : Z :=
  match u with
  | unit_ns => 1
  | unit_us => 1000
  end.

(** The fractional digits of a second a column of that unit is written
    with when its values are not whole milliseconds. *)
Definition fraction_digits (u : time_unit) : nat :=
  match u with
  | unit_ns => 9
  | unit_us => 6
  end.

(** [pd.date_range(start, end, periods)] with no frequency
    ([DatetimeArray._generate_range]):
    [np.linspace(0, end - start, periods, dtype="int64") + start], on the
    int64 counts of the unit.  The instants of the model are nanoseconds
    throughout, so the counts are scaled back. *)
Definition date_range (u : time_unit) (first last : Z) (periods : nat)
  : list Z :=
  let tick := ns_per_tick u in
  map (fun k => tick * (first / tick + k))
      (Float64.linspace (last / tick - first / tick) periods).

Definition dates (u : time_unit) : list Z := date_range u start stop n.

(** Where instant [i] would lie if the spacing were computed without
    rounding: [i / (n - 1)] of the way from [start] to [stop], cut down to a
    whole nanosecond.  The float64 computation is measured against it. *)
Definition even_position (i : nat) : Z :=
  start + Z.of_nat i * (stop - start) / (Z.of_nat n - 1).

(** How far a generated instant may lie from [even_position], in
    nanoseconds: the float64 product is off by a few nanoseconds, the
    microsecond count drops the rest of the microsecond. *)
Definition tolerance (u : time_unit) : Z :=
  match u with
  | unit_ns => 3
  | unit_us => 999
  end.

Fixpoint increasing (l : list Z) : bool :=
  match l with
  | a :: rest =>
      match rest with
      | b :: _ => (a <? b) && increasing rest
      | [] => true
      end
  | [] => true
  end.

Record Draws : Type := mkDraws {
  chosen_products : list string; (* np.random.choice(products, size=n) *)
  quantities : list Z;           (* np.random.randint(1, 6, size=n) *)
  missing_idx : list nat         (* np.random.choice(index, size=...,
                                    replace=False) *)
}.

Fixpoint nodupb (l : list nat) : bool :=
  match l with
  | [] => true
  | x :: rest => negb (existsb (Nat.eqb x) rest) && nodupb rest
  end.

(** What numpy promises of the three calls: [n] names of the catalogue,
    [n] integers of [1, 6), and [missing_size] distinct row labels. *)
Definition valid_draws (w : Draws) : bool :=
  (List.length (chosen_products w) =? n)%nat
  && forallb (fun p => existsb (String.eqb p) products) (chosen_products w)
  && (List.length (quantities w) =? n)%nat
  && forallb (fun q => (1 <=? q) && (q <? 6)) (quantities w)
  && (List.length (missing_idx w) =? missing_size)%nat
  && forallb (fun i => (i <? n)%nat) (missing_idx w)
  && nodupb (missing_idx w).

(** Lines 37-42: the frame built from the three columns and the price of
    each chosen product.  Every chosen name is a key of the price table, so
    the [KeyError] branch of [prices[p]] is never taken; the model puts 0
    there. *)
Fixpoint build (ds : list Z) (ps : list string) (qs : list Z) : list RawRow :=
  match ds, ps, qs with
  | d :: ds', p :: ps', q :: qs' =>
      mkRawRow d p (Some q)
               (match lookup prices p with Some v => v | None => 0 end)
        :: build ds' ps' qs'
  | _, _, _ => []
  end.

(** Line 46: [df_raw.loc[missing_idx, "quantity"] = np.nan]. *)
Definition without_quantity (r : RawRow) : RawRow :=
  mkRawRow (raw_date r) (raw_product r) None (raw_unit_price r).

Fixpoint set_nan (i : nat) (df : list RawRow) : list RawRow :=
  match df, i with
  | [], _ => []
  | r :: rest, O => without_quantity r :: rest
  | r :: rest, S i' => r :: set_nan i' rest
  end.

Definition df_raw (u : time_unit) (w : Draws) : list RawRow :=
  fold_left (fun df i => set_nan i df) (missing_idx w)
            (build (dates u) (chosen_products w) (quantities w)).

(** One outcome numpy can produce, used to run the pipeline on: the
    catalogue in turn, the quantities 1 to 5 in turn, and the first
    [missing_size] rows picked for the NaN injection. *)
Definition sample_draws : Draws :=
  mkDraws (flat_map (fun _ => products) (seq 0 50))
          (flat_map (fun _ => [1; 2; 3; 4; 5]) (seq 0 100))
          (seq 0 missing_size).

Definition absent_count (df : list RawRow) : nat :=
  List.length (filter (fun r => match raw_quantity r with
                                | None => true
                                | Some _ => false
                                end) df).

End Generator.

(** ** From the loaded frame to the cleaner

    The cleaner works on the frame [read_csv] returned; its float64 and
    int64 cells are read as rationals. *)
Definition loaded (df : list Csv.RawRow) : Cleaner.DataFrame :=
  map (fun r =>
         Cleaner.mkRow (Csv.raw_date r) (Csv.raw_product r)
                       (option_map inject_Z (Csv.raw_quantity r))
                       (inject_Z (Csv.raw_unit_price r)) None) df.

(** ** Small frames to run the cleaner on *)

Module Samples.

Import Cleaner.

Definition half_frame : DataFrame :=
  [mkRow 0 "A" (Some 2) 10 None;
   mkRow 0 "A" (Some 3) 10 None;
   mkRow 0 "A" None 10 None].

Definition half_cleaned : DataFrame :=
  [mkRow 0 "A" (Some (inject_Z 2)) 10 (Some (inject_Z 2 * 10));
   mkRow 0 "A" (Some (inject_Z 3)) 10 (Some (inject_Z 3 * 10));
   mkRow 0 "A" (Some (inject_Z 2)) 10 (Some (inject_Z 2 * 10))].

Definition orphan_frame : DataFrame :=
  [mkRow 0 "A" (Some 2) 10 None;
   mkRow 0 "A" None 10 None;
   mkRow 0 "B" None 20 None].

Definition scenario_frame : DataFrame :=
  [mkRow 0 "A" (Some 2) 10 None;
   mkRow 0 "A" None 10 None;
   mkRow 0 "B" (Some 4) 20 None;
   mkRow 0 "B" None 20 None].

Definition scenario_cleaned : DataFrame :=
  [mkRow 0 "A" (Some (inject_Z 2)) 10 (Some (inject_Z 2 * 10));
   mkRow 0 "A" (Some (inject_Z 2)) 10 (Some (inject_Z 2 * 10));
   mkRow 0 "B" (Some (inject_Z 4)) 20 (Some (inject_Z 4 * 20));
   mkRow 0 "B" (Some (inject_Z 4)) 20 (Some (inject_Z 4 * 20))].

(** One record of a product given away: quantity 1, unit price 0. *)
Definition free_frame : DataFrame := [mkRow 0 "A" (Some 1) 0 None].

End Samples.

(** ** What the script prints and labels, lines 84-95 and 128-161 *)

Module Report.

Import Cleaner Aggregator Csv.
#[local] Open Scope string_scope.
#[local] Open Scope Z_scope.

(** [strftime("%b")]: the English abbreviation of month [m] (1 to 12). *)
Definition month_abbr (m : Z) : string :=
  nth (Z.to_nat (m - 1))
      ["Jan"; "Feb"; "Mar"; "Apr"; "May"; "Jun";
       "Jul"; "Aug"; "Sep"; "Oct"; "Nov"; "Dec"] "".

(** Line 93: the label of a monthly period (months since January 1970). *)
Definition month_label (period : Z) : string := month_abbr (period mod 12 + 1).

(** Lines 93-95: the month labels beside the monthly sums; these pairs are
    also the bars of the first chart (lines 120-124). *)
Definition monthly_table (df : DataFrame) : list (string * Q) :=
  map (fun e => (month_label (fst e), snd e)) (monthly_revenue df).

(** The [,] option of Python's format: a comma before every group of three
    digits, counted from the right.  [group3] works on the digits in
    reverse. *)
Fixpoint group3 (ds : list ascii) : list ascii :=
  match ds with
  | a :: b :: c :: rest =>
      match rest with
      | [] => [a; b; c]
      | _ :: _ => a :: b :: c :: ","%char :: group3 rest
      end
  | _ => ds
  end.

Definition group_digits (s : string) : string :=
  string_of_list_ascii (rev (group3 (rev (list_ascii_of_string s)))).

Definition thousands (z : Z) : string :=
  match string_of_Z z with
  | String c ds =>
      if Ascii.eqb c "-" then String c (group_digits ds)
      else group_digits (String c ds)
  | EmptyString => EmptyString
  end.

(** [f"${x:,.0f}"] (lines 128-157) and [f"${x:,.2f}"] (line 84) for a
    whole amount [x], which every revenue sum of the script is (integer
    prices times integer quantities). *)
Definition currency0 (x : Z) : string := "$" ++ thousands x.
Definition currency2 (x : Z) : string := "$" ++ thousands x ++ ".00".

(** Reading an amount back from its label: drop the dollar sign and the
    commas, read the number. *)
Definition remove_commas (s : string) : string :=
  string_of_list_ascii
    (filter (fun c => negb (Ascii.eqb c ",")) (list_ascii_of_string s)).

Definition read_currency (s : string) : option Z :=
  match s with
  | String c amount =>
      if Ascii.eqb c "$" then whole_float_of_string (remove_commas amount)
      else None
  | EmptyString => None
  end.

End Report.

(** ** The draws and the outcome of a run *)

Module Run.

Import Catalogue Csv Generator.
#[local] Open Scope string_scope.

(** One row of [loaded]. *)
Definition load_row (r : RawRow) : Cleaner.Row :=
  Cleaner.mkRow (raw_date r) (raw_product r)
                (option_map inject_Z (raw_quantity r))
                (inject_Z (raw_unit_price r)) None.

(** Product [p] keeps a row outside the NaN injection: some row drawn with
    [p] is not among the labels of [missing_idx]. *)
Definition kept (w : Draws) (p : string) : bool :=
  existsb (fun i => String.eqb (nth i (chosen_products w) "") p
                    && negb (existsb (Nat.eqb i) (missing_idx w)))
          (seq 0 n).

Definition every_product_kept (w : Draws) : bool :=
  forallb (kept w) (chosen_products w).

(** An outcome numpy can produce in which the NaN injection takes every
    row of one product: "Laptop" is drawn for the first [missing_size] rows
    only, and those are the rows picked. *)
Definition unlucky_draws : Draws :=
  mkDraws (repeat "Laptop" missing_size ++ repeat "Monitor" (n - missing_size))
          (repeat 3%Z n)
          (seq 0 missing_size).

End Run.

(** * Properties of the cleaner *)

Section CleanerFacts.

Import Cleaner.

Lemma astype_int_defined (df : DataFrame) :
  Forall (fun r => quantity r <> None) df ->
  astype_int df = Ok (map cast_row df).
Proof.
  induction 1 as [| r rest Hr _ IH]; simpl; [reflexivity |].
  unfold cast_row at 1.
  destruct (quantity r) as [q |]; [| congruence].
  now rewrite IH.
Qed.

Lemma astype_int_nan (df : DataFrame) :
  Exists (fun r => quantity r = None) df ->
  astype_int df = Raise IntCastingNaNError.
Proof.
  induction 1 as [r rest Hr | r rest _ IH]; simpl.
  - now rewrite Hr.
  - destruct (quantity r); [| reflexivity].
    now rewrite IH.
Qed.

Lemma astype_int_inv (df df' : DataFrame) :
  astype_int df = Ok df' ->
  Forall (fun r => quantity r <> None) df /\ df' = map cast_row df.
Proof.
  revert df'; induction df as [| r rest IH]; simpl; intros df' H.
  - injection H as <-. split; constructor.
  - unfold cast_row at 1.
    destruct (quantity r) as [q |] eqn:Hq; [| discriminate].
    destruct (astype_int rest) as [rest' |] eqn:Hrest; [| discriminate].
    injection H as <-.
    destruct (IH rest' eq_refl) as [Hall ->].
    split; [constructor; [congruence | assumption] | reflexivity].
Qed.

Lemma clean_inv (df df' : DataFrame) :
  clean df = Ok df' ->
  Forall (fun r => quantity r <> None) (fill_missing df)
  /\ df' = map (fun r => revenue_row (cast_row (fill_row df r))) df.
Proof.
  unfold clean. destruct (astype_int (fill_missing df)) as [d |] eqn:H;
    [| discriminate].
  intros [= <-]. apply astype_int_inv in H as [Hall ->].
  split; [assumption |].
  unfold add_revenue, fill_missing. now rewrite !map_map.
Qed.

Lemma clean_defined (df : DataFrame) :
  Forall (fun r => quantity r <> None) (fill_missing df) ->
  clean df = Ok (map (fun r => revenue_row (cast_row (fill_row df r))) df).
Proof.
  intros H. unfold clean. rewrite (astype_int_defined _ H).
  unfold add_revenue, fill_missing. now rewrite !map_map.
Qed.

(** Whatever the cleaner returns is a cleaned dataset: the datasets
    [already_cleaned] describes are exactly the cleaner's outputs. *)
Lemma clean_output_cleaned (df df' : DataFrame) :
  clean df = Ok df' -> already_cleaned df'.
Proof.
  intros H. apply clean_inv in H as [Hall ->].
  unfold already_cleaned, fill_missing in *.
  rewrite Forall_map in Hall. rewrite Forall_map.
  revert Hall. apply Forall_impl. intros r Hr.
  destruct (quantity (fill_row df r)) as [q |] eqn:Hq; [| congruence].
  exists (trunc q). unfold revenue_row, cast_row, set_revenue, set_quantity.
  cbn [quantity revenue unit_price]. rewrite Hq. auto.
Qed.

(** The median is NaN exactly when the group has no defined value. *)
Lemma median_none (col : list (option Q)) :
  median col = None <-> dropna col = [].
Proof.
  unfold median.
  pose proof (Permutation_length (QSort.Permuted_sort (dropna col))) as Hlen.
  destruct (List.length (QSort.sort (dropna col))) as [| k] eqn:Hk; simpl.
  - split; [intros _ | reflexivity].
    now apply length_zero_iff_nil.
  - split.
    + destruct (Nat.odd (S k)); discriminate.
    + intros Hnil. rewrite Hnil in Hlen. discriminate.
Qed.

Lemma fill_missing_defined (df : DataFrame) :
  (forall r, In r df -> dropna (group_quantity df (product r)) <> []) ->
  Forall (fun r => quantity r <> None) (fill_missing df).
Proof.
  intros H. unfold fill_missing. apply Forall_map, Forall_forall.
  intros r Hr. unfold fill_row. simpl.
  destruct (quantity r) as [q |]; simpl; [discriminate |].
  intros Hm. apply median_none in Hm. now apply (H r).
Qed.

Lemma fill_row_defined (df : DataFrame) (r : Row) (q : Q) :
  quantity r = Some q -> fill_row df r = r.
Proof.
  intros H. destruct r as [d p qq u v]. simpl in H. subst qq.
  reflexivity.
Qed.

Lemma trunc_inject_Z (z : Z) : trunc (inject_Z z) = z.
Proof. unfold trunc. simpl. apply Z.quot_1_r. Qed.

Lemma trunc_floor (q : Q) : 0 <= q -> trunc q = Qfloor q.
Proof.
  destruct q as [a b]. unfold Qle, trunc, Qfloor. simpl. intros H.
  apply Z.quot_div_nonneg; lia.
Qed.

Lemma trunc_bounds (q : Q) (lo hi : Z) :
  (0 <= lo)%Z -> inject_Z lo <= q <= inject_Z hi ->
  (lo <= trunc q <= hi)%Z.
Proof.
  intros Hlo [H1 H2].
  assert (H0 : 0 <= q).
  { apply Qle_trans with (inject_Z lo); [| assumption].
    change 0 with (inject_Z 0). now rewrite <- Zle_Qle. }
  rewrite (trunc_floor _ H0). split.
  - rewrite <- (Qfloor_Z lo). now apply Qfloor_resp_le.
  - rewrite <- (Qfloor_Z hi). now apply Qfloor_resp_le.
Qed.

Lemma median_bounds (col : list (option Q)) (lo hi m : Q) :
  (forall q, In q (dropna col) -> lo <= q <= hi) ->
  median col = Some m -> lo <= m <= hi.
Proof.
  intros Hall. unfold median.
  set (s := QSort.sort (dropna col)).
  assert (Hs : forall q, In q s -> lo <= q <= hi).
  { intros q Hq. apply Hall.
    apply Permutation_in with s; [| assumption].
    apply Permutation_sym, QSort.Permuted_sort. }
  destruct (List.length s) as [| k] eqn:Hk; cbn [Nat.eqb]; [discriminate |].
  assert (Hmid : (S k / 2 < List.length s)%nat).
  { rewrite Hk. apply Nat.div_lt; lia. }
  assert (Hlow : (S k / 2 - 1 < List.length s)%nat) by lia.
  pose proof (Hs _ (nth_In s 0 Hmid)) as [A1 A2].
  pose proof (Hs _ (nth_In s 0 Hlow)) as [B1 B2].
  generalize dependent (nth (S k / 2) s 0).
  generalize dependent (nth (S k / 2 - 1) s 0).
  intros a B1 B2 b A1 A2.
  destruct (Nat.odd (S k)); intros [= <-].
  - now split.
  - split.
    + apply Qle_shift_div_l; [reflexivity | lra].
    + apply Qle_shift_div_r; [reflexivity | lra].
Qed.

Lemma in_group_quantity (df : DataFrame) (p : string) (q : Q) :
  In q (dropna (group_quantity df p)) ->
  exists r, In r df /\ quantity r = Some q.
Proof.
  unfold group_quantity. induction df as [| r rest IH]; simpl; [easy |].
  destruct (String.eqb (product r) p); simpl.
  - destruct (quantity r) as [q' |] eqn:Hq; simpl.
    + intros [<- | H]; [now exists r; auto |].
      destruct (IH H) as (r' & Hin & Hr'). exists r'. auto.
    + intros H. destruct (IH H) as (r' & Hin & Hr'). exists r'. auto.
  - intros H. destruct (IH H) as (r' & Hin & Hr'). exists r'. auto.
Qed.

Lemma price_positive (p : string) (v : Z) :
  Catalogue.lookup Catalogue.prices p = Some v -> (0 < v)%Z.
Proof.
  unfold Catalogue.prices. cbn [Catalogue.lookup].
  repeat (destruct (String.eqb _ p); [intros [= <-]; reflexivity |]).
  discriminate.
Qed.

End CleanerFacts.

(** ** The claims about the cleaner *)

Section CleanerClaims.

Import Cleaner Samples.

(** C1 (as the code has it).  A record whose quantity is absent before
    cleaning holds, after cleaning, the median of the defined quantities of
    its product group with the fractional part dropped: the integer cast
    of line 73 truncates, it does not round to nearest. *)
Theorem clean_fills_truncated_median (df df' : DataFrame) (i : nat) (r : Row) :
  clean df = Ok df' ->
  nth_error df i = Some r ->
  quantity r = None ->
  exists m r',
    median (group_quantity df (product r)) = Some m
    /\ nth_error df' i = Some r'
    /\ quantity r' = Some (inject_Z (trunc m)).
Proof.
  intros Hc Hi Hq.
  apply clean_inv in Hc as [Hall ->].
  assert (Hin : In (fill_row df r) (fill_missing df)).
  { apply in_map, nth_error_In with i, Hi. }
  rewrite Forall_forall in Hall. specialize (Hall _ Hin).
  unfold fill_row in Hall. simpl in Hall. rewrite Hq in Hall. simpl in Hall.
  destruct (median (group_quantity df (product r))) as [m |] eqn:Hm;
    [| congruence].
  exists m. eexists. split; [reflexivity |]. split.
  - apply map_nth_error, Hi.
  - unfold fill_row. simpl. rewrite Hq, Hm. reflexivity.
Qed.

Lemma clean_fills_truncated_median_witness :
  clean half_frame = Ok half_cleaned
  /\ exists m r',
       median (group_quantity half_frame "A") = Some m
       /\ nth_error half_cleaned 2 = Some r'
       /\ quantity r' = Some (inject_Z (trunc m)).
Proof.
  split; [reflexivity |].
  apply (clean_fills_truncated_median half_frame half_cleaned 2
           (mkRow 0 "A" None 10 None)); reflexivity.
Defined.

(** C1 as the specification states it fails: in a group whose defined
    quantities are 2 and 3 the median is 5/2; the script fills 2 where
    round-half-up asks for 3. *)
Lemma round_half_up_fill_refuted :
  ~ (forall (df df' : DataFrame) (i : nat) (r : Row),
        clean df = Ok df' ->
        nth_error df i = Some r ->
        quantity r = None ->
        exists m r',
          median (group_quantity df (product r)) = Some m
          /\ nth_error df' i = Some r'
          /\ quantity r' = Some (inject_Z (round_half_up m))).
Proof.
  intros H.
  destruct (H half_frame _ 2%nat (mkRow 0 "A" None 10 None)
              eq_refl eq_refl eq_refl) as (m & r' & Hm & Hr' & Hq).
  vm_compute in Hm. injection Hm as <-.
  vm_compute in Hr'. injection Hr' as <-.
  vm_compute in Hq. discriminate.
Qed.

(** C2 (as the code has it).  When a product group has no defined
    quantity the fill of lines 66-68 does not fail: it leaves the group's
    cells NaN (never zero).  The run then stops at the integer cast of line
    73, which raises pandas' [IntCastingNaNError]; nothing in the script
    raises an error about imputation. *)
Theorem clean_raises_without_basis (df : DataFrame) (r : Row) :
  In r df ->
  dropna (group_quantity df (product r)) = [] ->
  quantity (fill_row df r) = None
  /\ astype_int (fill_missing df) = Raise IntCastingNaNError
  /\ clean df = Raise IntCastingNaNError.
Proof.
  intros Hin Hnil.
  assert (Hq : quantity r = None).
  { destruct (quantity r) as [q |] eqn:Hq; [| reflexivity].
    exfalso.
    assert (In q (dropna (group_quantity df (product r)))).
    { clear Hnil. unfold group_quantity.
      induction df as [| r0 rest IH]; simpl in *; [easy |].
      destruct Hin as [-> | Hin].
      - rewrite String.eqb_refl. simpl. rewrite Hq. now left.
      - destruct (String.eqb (product r0) (product r)); simpl; auto.
        destruct (quantity r0); simpl; auto. }
    rewrite Hnil in H. easy. }
  assert (Hfill : quantity (fill_row df r) = None).
  { unfold fill_row. simpl. rewrite Hq. simpl. now apply median_none. }
  assert (Hcast : astype_int (fill_missing df) = Raise IntCastingNaNError).
  { apply astype_int_nan.
    apply Exists_exists. exists (fill_row df r). split; [| assumption].
    now apply in_map. }
  split; [assumption |]. split; [assumption |].
  unfold clean. now rewrite Hcast.
Qed.

Lemma clean_raises_without_basis_witness :
  quantity (fill_row orphan_frame (mkRow 0 "B" None 20 None)) = None
  /\ astype_int (fill_missing orphan_frame) = Raise IntCastingNaNError
  /\ clean orphan_frame = Raise IntCastingNaNError.
Proof.
  apply clean_raises_without_basis.
  - simpl. auto.
  - reflexivity.
Defined.

(** C2 as the specification states it fails: on the frame whose product
    B has no defined quantity the exception that ends the run is an
    [IntCastingNaNError], which is a [ValueError] and not a [DataError]. *)
Lemma data_error_refuted :
  ~ (forall (df : DataFrame) (r : Row),
        In r df ->
        dropna (group_quantity df (product r)) = [] ->
        exists e, clean df = Raise e /\ is_instance e "DataError" = true).
Proof.
  intros H.
  destruct (H orphan_frame (mkRow 0 "B" None 20 None)) as (e & He & Hi).
  - simpl. auto.
  - reflexivity.
  - vm_compute in He. injection He as <-. vm_compute in Hi. discriminate.
Qed.

(** C3.  When every product group has a defined quantity the cleaner
    succeeds, keeps the row count, leaves no absent quantity (neither after
    the fill nor at the end), and every record's revenue is its quantity
    times its unit price. *)
Theorem clean_complete (df : DataFrame) :
  (forall r, In r df -> dropna (group_quantity df (product r)) <> []) ->
  exists df',
    clean df = Ok df'
    /\ List.length df' = List.length df
    /\ missing_count (fill_missing df) = 0%nat
    /\ missing_count df' = 0%nat
    /\ Forall (fun r => exists q, quantity r = Some q
                                  /\ revenue r = Some (q * unit_price r)) df'.
Proof.
  intros H. pose proof (fill_missing_defined df H) as Hall.
  eexists. split; [apply clean_defined, Hall |].
  assert (Hcount : forall d, Forall (fun r => quantity r <> None) d ->
                             missing_count d = 0%nat).
  { unfold missing_count. induction 1 as [| r rest Hr _ IH]; simpl; auto.
    destruct (quantity r); [assumption | congruence]. }
  assert (Hrows : Forall (fun r => exists q, quantity r = Some q
                                   /\ revenue r = Some (q * unit_price r))
                    (map (fun r => revenue_row (cast_row (fill_row df r))) df)).
  { unfold fill_missing in Hall. rewrite Forall_map in Hall.
    rewrite Forall_map. revert Hall. apply Forall_impl. intros r Hr.
    destruct (quantity (fill_row df r)) as [q |] eqn:Hq; [| congruence].
    exists (inject_Z (trunc q)).
    unfold revenue_row, cast_row, set_revenue, set_quantity.
    cbn [quantity revenue unit_price]. rewrite Hq. auto. }
  split; [apply length_map |]. split; [apply Hcount, Hall |].
  split; [| exact Hrows].
  apply Hcount. revert Hrows. apply Forall_impl.
  intros r (q & Hq & _). congruence.
Qed.

Lemma clean_complete_witness :
  exists df',
    clean scenario_frame = Ok df'
    /\ List.length df' = List.length scenario_frame
    /\ missing_count (fill_missing scenario_frame) = 0%nat
    /\ missing_count df' = 0%nat
    /\ Forall (fun r => exists q, quantity r = Some q
                                  /\ revenue r = Some (q * unit_price r)) df'.
Proof.
  apply clean_complete.
  intros r [<- | [<- | [<- | [<- | []]]]]; discriminate.
Defined.

(** C8.  Re-running the cleaner on an already-cleaned dataset (no absent
    quantity, whole quantities, revenue derived: what the cleaner returns,
    see [clean_output_cleaned]) gives the dataset back. *)
Theorem clean_idempotent (df : DataFrame) :
  already_cleaned df -> clean df = Ok df.
Proof.
  unfold already_cleaned. intros H.
  assert (Hfill : fill_missing df = df).
  { unfold fill_missing. rewrite <- (map_id df) at 3.
    apply map_ext_in. intros r Hr.
    rewrite Forall_forall in H. destruct (H r Hr) as (z & Hq & _).
    now apply fill_row_defined with (inject_Z z). }
  unfold clean. rewrite Hfill, astype_int_defined.
  - f_equal. unfold add_revenue. rewrite map_map.
    rewrite <- (map_id df) at 2. apply map_ext_in. intros r Hr.
    rewrite Forall_forall in H. destruct (H r Hr) as (z & Hq & Hv).
    destruct r as [d p q u v]. simpl in *. subst q v.
    unfold revenue_row, cast_row, set_revenue, set_quantity. simpl.
    now rewrite trunc_inject_Z.
  - revert H. apply Forall_impl. intros r (z & Hq & _). congruence.
Qed.

Lemma clean_idempotent_witness :
  clean scenario_frame = Ok scenario_cleaned
  /\ clean scenario_cleaned = Ok scenario_cleaned.
Proof.
  split; [reflexivity |].
  apply clean_idempotent. unfold already_cleaned.
  repeat constructor; [exists 2%Z | exists 2%Z | exists 4%Z | exists 4%Z];
    split; reflexivity.
Defined.

(** C10 (as the code has it).  On a dataset with defined quantities in
    [1, 5], a defined quantity in every product group and strictly positive
    unit prices, every cleaned quantity is a whole number of [1, 5] and
    every revenue is strictly positive.  The cleaner does not look at the
    prices: the bound on the revenue is as good as the prices it is
    given. *)
Theorem clean_quantity_range (df : DataFrame) :
  (forall r q, In r df -> quantity r = Some q -> 1 <= q <= 5) ->
  (forall r, In r df -> dropna (group_quantity df (product r)) <> []) ->
  (forall r, In r df -> 0 < unit_price r) ->
  exists df',
    clean df = Ok df'
    /\ Forall (fun r => exists (z : Z) (v : Q),
                   quantity r = Some (inject_Z z) /\ (1 <= z <= 5)%Z
                   /\ revenue r = Some v /\ 0 < v) df'.
Proof.
  intros Hrange Hgroups Hprice.
  pose proof (fill_missing_defined df Hgroups) as Hall.
  eexists. split; [apply clean_defined, Hall |].
  unfold fill_missing in Hall. rewrite Forall_map in Hall.
  rewrite Forall_map. rewrite Forall_forall in Hall |- *.
  intros r Hr. specialize (Hall r Hr).
  destruct (quantity (fill_row df r)) as [q |] eqn:Hq; [| congruence].
  clear Hall.
  assert (Hq15 : inject_Z 1 <= q <= inject_Z 5).
  { unfold fill_row in Hq. cbn [quantity set_quantity] in Hq.
    destruct (quantity r) as [q0 |] eqn:Hq0; cbn [fillna] in Hq.
    - injection Hq as <-. now apply (Hrange r).
    - apply (median_bounds (group_quantity df (product r))); [| exact Hq].
      intros q1 Hq1. apply in_group_quantity in Hq1 as (r1 & Hin1 & Hr1).
      now apply (Hrange r1). }
  pose proof (Hprice r Hr) as Hu.
  pose proof (trunc_bounds q 1 5 ltac:(lia) Hq15) as Hz.
  exists (trunc q), (inject_Z (trunc q) * unit_price r).
  unfold revenue_row, cast_row, set_revenue, set_quantity.
  cbn [quantity revenue unit_price]. rewrite Hq.
  change (unit_price (fill_row df r)) with (unit_price r).
  repeat split; try lia.
  apply Qmult_lt_0_compat; [| assumption].
  change 0 with (inject_Z 0). rewrite <- Zlt_Qlt. lia.
Qed.

Lemma clean_quantity_range_witness :
  exists df',
    clean scenario_frame = Ok df'
    /\ Forall (fun r => exists (z : Z) (v : Q),
                   quantity r = Some (inject_Z z) /\ (1 <= z <= 5)%Z
                   /\ revenue r = Some v /\ 0 < v) df'.
Proof.
  apply clean_quantity_range.
  - intros r q [<- | [<- | [<- | [<- | []]]]] [= <-];
      split; discriminate.
  - intros r [<- | [<- | [<- | [<- | []]]]]; discriminate.
  - intros r [<- | [<- | [<- | [<- | []]]]]; reflexivity.
Defined.

(** C10 as the specification states it fails: the claim puts no condition
    on the prices, and a record with quantity 1 and unit price 0 is cleaned
    to revenue 0, which is not strictly positive. *)
Lemma positive_revenue_refuted :
  ~ (forall df : DataFrame,
        (forall r q, In r df -> quantity r = Some q -> 1 <= q <= 5) ->
        (forall r, In r df -> dropna (group_quantity df (product r)) <> []) ->
        exists df',
          clean df = Ok df'
          /\ Forall (fun r => exists (z : Z) (v : Q),
                         quantity r = Some (inject_Z z) /\ (1 <= z <= 5)%Z
                         /\ revenue r = Some v /\ 0 < v) df').
Proof.
  intros H.
  destruct (H free_frame) as (df' & Hc & Hall).
  - intros r q [<- | []] [= <-]. split; discriminate.
  - intros r [<- | []]. discriminate.
  - vm_compute in Hc. injection Hc as <-.
    inversion Hall as [| r0 l (z & v & _ & _ & Hv & Hpos) _]; subst.
    injection Hv as <-. vm_compute in Hpos. discriminate.
Qed.

End CleanerClaims.

(** * Properties of the analysis stage *)

Section GroupByFacts.

Import Cleaner Aggregator.

Variable K : Type.
Variable eq_dec : forall a b : K, {a = b} + {a <> b}.
Variable key : Row -> K.

(** A new row adds its revenue to the sum of its own group only. *)
Lemma group_sum_cons (r : Row) (df : DataFrame) (k : K) :
  group_sum K eq_dec key (r :: df) k
  == (if eq_dec (key r) k then revenue_value r else 0)
     + group_sum K eq_dec key df k.
Proof.
  unfold group_sum, in_group. simpl.
  destruct (eq_dec (key r) k); simpl; ring.
Qed.

Lemma sum_single_group (v : Q) (k0 : K) (ks : list K) :
  NoDup ks ->
  sumQ (map (fun k => if eq_dec k0 k then v else 0) ks)
  == if in_dec eq_dec k0 ks then v else 0.
Proof.
  induction 1 as [| k ks Hk _ IH]; simpl; [reflexivity |].
  rewrite IH.
  destruct (eq_dec k k0) as [-> | Hne]; destruct (eq_dec k0 k0) as [_ | F];
    try congruence.
  - destruct (in_dec eq_dec k0 ks); [contradiction | ring].
  - destruct (eq_dec k0 k); [congruence |].
    destruct (in_dec eq_dec k0 ks); ring.
Qed.

(** Summing the group sums over distinct keys that cover the frame gives
    the sum over all rows. *)
Lemma group_sums_total (ks : list K) (df : DataFrame) :
  NoDup ks ->
  (forall r, In r df -> In (key r) ks) ->
  sumQ (map (group_sum K eq_dec key df) ks) == total_revenue df.
Proof.
  intros Hnd. induction df as [| r df IH]; intros Hcover.
  - unfold total_revenue, group_sum. simpl.
    clear. induction ks as [| k ks IH]; simpl; [reflexivity |].
    rewrite IH. ring.
  - assert (Hsplit :
      sumQ (map (group_sum K eq_dec key (r :: df)) ks)
      == sumQ (map (fun k => if eq_dec (key r) k then revenue_value r else 0)
                   ks)
         + sumQ (map (group_sum K eq_dec key df) ks)).
    { clear. induction ks as [| k ks IHk]; simpl; [ring |].
      rewrite IHk, group_sum_cons. ring. }
    rewrite Hsplit, (sum_single_group _ _ _ Hnd), IH.
    + destruct (in_dec eq_dec (key r) ks) as [_ | Hout].
      * unfold total_revenue. simpl. ring.
      * exfalso. apply Hout, Hcover. now left.
    + intros r' Hr'. apply Hcover. now right.
Qed.

Variable sort : list K -> list K.
Hypothesis sort_perm : forall l, Permutation l (sort l).

Lemma group_keys_NoDup (df : DataFrame) :
  NoDup (group_keys K eq_dec sort key df).
Proof.
  unfold group_keys.
  apply Permutation_NoDup with (nodup eq_dec (map key df));
    [apply sort_perm | apply NoDup_nodup].
Qed.

Lemma group_keys_cover (df : DataFrame) (r : Row) :
  In r df -> In (key r) (group_keys K eq_dec sort key df).
Proof.
  intros Hr. unfold group_keys.
  apply Permutation_in with (nodup eq_dec (map key df)); [apply sort_perm |].
  apply nodup_In, in_map, Hr.
Qed.

Lemma groupby_sum_total (df : DataFrame) :
  sumQ (map snd (groupby_sum K eq_dec sort key df)) == total_revenue df.
Proof.
  unfold groupby_sum. rewrite map_map. simpl.
  apply group_sums_total; [apply group_keys_NoDup |].
  apply group_keys_cover.
Qed.

Lemma groupby_sum_length (df : DataFrame) :
  List.length (groupby_sum K eq_dec sort key df)
  = List.length (nodup eq_dec (map key df)).
Proof.
  unfold groupby_sum, group_keys. rewrite length_map.
  symmetry. apply Permutation_length, sort_perm.
Qed.

End GroupByFacts.

(** ** The descending sort *)

Section SortFacts.

Import Aggregator.

Lemma insert_sorted_perm (x : string * Q) (l : list (string * Q)) :
  Permutation (x :: l) (insert_sorted x l).
Proof.
  induction l as [| y rest IH]; cbn [insert_sorted]; [reflexivity |].
  destruct (Qle_bool (snd x) (snd y)); [reflexivity |].
  rewrite perm_swap. now apply perm_skip.
Qed.

Lemma argsort_perm (s : list (string * Q)) : Permutation s (argsort s).
Proof.
  induction s as [| x s IH]; cbn [argsort fold_right]; [constructor |].
  rewrite <- insert_sorted_perm. now apply perm_skip.
Qed.

Lemma sort_values_desc_perm (s : list (string * Q)) :
  Permutation s (sort_values_desc s).
Proof.
  unfold sort_values_desc. rewrite <- Permutation_rev, <- argsort_perm.
  apply Permutation_rev.
Qed.

Lemma insert_sorted_ascending (x : string * Q) (l : list (string * Q)) :
  StronglySorted (fun a b => snd a <= snd b) l ->
  StronglySorted (fun a b => snd a <= snd b) (insert_sorted x l).
Proof.
  induction 1 as [| y rest Hs IH Hy]; cbn [insert_sorted].
  - repeat constructor.
  - destruct (Qle_bool (snd x) (snd y)) eqn:Hxy.
    + apply Qle_bool_iff in Hxy. constructor; [now constructor |].
      constructor; [assumption |].
      revert Hy. apply Forall_impl. intros b Hb.
      now apply Qle_trans with (snd y).
    + assert (Hyx : snd y <= snd x).
      { destruct (Qlt_le_dec (snd y) (snd x)) as [H | H].
        - now apply Qlt_le_weak.
        - apply Qle_bool_iff in H. congruence. }
      constructor; [assumption |].
      apply (Permutation_Forall (insert_sorted_perm x rest)).
      now constructor.
Qed.

Lemma argsort_ascending (s : list (string * Q)) :
  StronglySorted (fun a b => snd a <= snd b) (argsort s).
Proof.
  induction s as [| x s IH]; cbn [argsort fold_right]; [constructor |].
  now apply insert_sorted_ascending.
Qed.

Lemma StronglySorted_snoc {A : Type} (R : A -> A -> Prop) (l : list A)
      (x : A) :
  StronglySorted R l -> Forall (fun a => R a x) l ->
  StronglySorted R (l ++ [x]).
Proof.
  induction 1 as [| a l Hs IH Ha]; intros Hx; cbn [app].
  - repeat constructor.
  - inversion Hx as [| ? ? Hax Hlx]; subst.
    constructor; [now apply IH |].
    apply Forall_app. split; [assumption | now constructor].
Qed.

Lemma StronglySorted_rev {A : Type} (R : A -> A -> Prop) (l : list A) :
  StronglySorted R l -> StronglySorted (fun a b => R b a) (rev l).
Proof.
  induction 1 as [| a l Hs IH Ha]; cbn [rev]; [constructor |].
  apply StronglySorted_snoc; [assumption |].
  apply Forall_rev. exact Ha.
Qed.

(** The sorted series is in non-increasing order of the sums. *)
Lemma ranking_sorted (l : list (string * Q)) :
  StronglySorted (fun a b => snd b <= snd a) (sort_values_desc l).
Proof.
  unfold sort_values_desc.
  apply (StronglySorted_rev (fun a b : string * Q => snd a <= snd b)).
  apply argsort_ascending.
Qed.

End SortFacts.

Section AggregatorClaims.

Import Cleaner Aggregator.

(** C6.  The revenues of the monthly aggregates add up to the total
    revenue (in exact arithmetic). *)
Theorem monthly_revenue_sums_to_total (df : DataFrame) :
  sumQ (map snd (monthly_revenue df)) == total_revenue df.
Proof.
  unfold monthly_revenue. apply groupby_sum_total.
  apply ZSort.Permuted_sort.
Qed.

Lemma StronglySorted_firstn {A : Type} (R : A -> A -> Prop) (k : nat)
      (l : list A) :
  StronglySorted R l -> StronglySorted R (firstn k l).
Proof.
  intros H. revert k. induction H as [| a l Hs IH Ha]; intros [| k]; simpl;
    try constructor.
  - apply IH.
  - rewrite Forall_forall in Ha |- *. intros x Hx.
    apply Ha. rewrite <- (firstn_skipn k l). apply in_or_app. now left.
Qed.

(** C7.  The ranking has min(5, number of distinct products) entries,
    in non-increasing order of summed revenue. *)
Theorem top_products_length_sorted (df : DataFrame) :
  List.length (top_products df)
  = Nat.min 5 (List.length (distinct_products df))
  /\ StronglySorted (fun a b => snd b <= snd a) (top_products df).
Proof.
  unfold top_products, head. split.
  - rewrite length_firstn.
    rewrite <- (Permutation_length (sort_values_desc_perm _)).
    rewrite groupby_sum_length; [reflexivity |].
    apply StringSort.Permuted_sort.
  - apply StronglySorted_firstn, ranking_sorted.
Qed.

(** The scenario of the specification: the four records of products A and
    B give revenues 20, 20, 80, 80, a total of 200, and, all dated in one
    month, one monthly aggregate holding that total. *)
Example scenario_totals :
  clean Samples.scenario_frame = Ok Samples.scenario_cleaned
  /\ map revenue_value Samples.scenario_cleaned = [20; 20; 80; 80]
  /\ total_revenue Samples.scenario_cleaned == 200
  /\ List.length (monthly_revenue Samples.scenario_cleaned) = 1%nat
  /\ sumQ (map snd (monthly_revenue Samples.scenario_cleaned)) == 200.
Proof. repeat split. Qed.

End AggregatorClaims.

(** * Properties of the generator *)

Section GeneratorFacts.

Import Catalogue Csv Generator.

Lemma nodupb_NoDup (l : list nat) : nodupb l = true -> NoDup l.
Proof.
  induction l as [| x l IH]; simpl; [constructor |].
  intros H. apply andb_prop in H as [Hx Hl]. constructor; [| auto].
  intros Hin. apply negb_true_iff in Hx.
  assert (existsb (Nat.eqb x) l = true); [| congruence].
  apply existsb_exists. exists x. split; [assumption | apply Nat.eqb_refl].
Qed.

(** The boolean check of the draws, read as propositions. *)
Lemma valid_draws_spec (w : Draws) :
  valid_draws w = true ->
  List.length (chosen_products w) = n
  /\ Forall (fun p => In p products) (chosen_products w)
  /\ List.length (quantities w) = n
  /\ Forall (fun q => (1 <= q <= 5)%Z) (quantities w)
  /\ List.length (missing_idx w) = missing_size
  /\ Forall (fun i => (i < n)%nat) (missing_idx w)
  /\ NoDup (missing_idx w).
Proof.
  unfold valid_draws. rewrite !andb_true_iff, !Nat.eqb_eq, !forallb_forall.
  intros ((((((H1 & H2) & H3) & H4) & H5) & H6) & H7).
  repeat split; try assumption.
  - apply Forall_forall. intros p Hp. specialize (H2 p Hp).
    apply existsb_exists in H2 as (x & Hx & E).
    apply String.eqb_eq in E. now subst.
  - apply Forall_forall. intros q Hq. specialize (H4 q Hq).
    apply andb_prop in H4 as [A B].
    apply Z.leb_le in A. apply Z.ltb_lt in B. lia.
  - apply Forall_forall. intros i Hi. now apply Nat.ltb_lt, H6.
  - now apply nodupb_NoDup.
Qed.

Lemma dates_length (u : time_unit) : List.length (dates u) = n.
Proof.
  unfold dates, date_range, Float64.linspace.
  now rewrite !length_map, length_seq.
Qed.

(** **** The frame of lines 37-42 *)

Lemma build_length (ds : list Z) (ps : list string) (qs : list Z) (k : nat) :
  List.length ds = k -> List.length ps = k -> List.length qs = k ->
  List.length (build ds ps qs) = k.
Proof.
  revert ds ps qs. induction k as [| k IH];
    intros [| d ds] [| p ps] [| q qs]; simpl; try discriminate; auto.
Qed.

Lemma build_defined (ds : list Z) (ps : list string) (qs : list Z) :
  Forall defined_row (build ds ps qs).
Proof.
  revert ps qs. induction ds as [| d ds IH]; intros [| p ps] [| q qs]; simpl;
    constructor; solve [eexists; reflexivity | apply IH].
Qed.

Lemma build_range (ds : list Z) (ps : list string) (qs : list Z)
      (P : Z -> Prop) :
  Forall P qs ->
  Forall (fun r => forall q, raw_quantity r = Some q -> P q) (build ds ps qs).
Proof.
  intros H. revert ds ps. induction H as [| q qs Hq _ IH];
    intros [| d ds] [| p ps]; simpl; constructor; auto.
  simpl. now intros q' [= <-].
Qed.

Lemma catalogue_price (p : string) :
  In p products -> exists v, lookup prices p = Some v.
Proof.
  unfold products. simpl.
  intros H. repeat (destruct H as [<- | H]; [eexists; reflexivity |]).
  contradiction.
Qed.

Lemma build_priced (ds : list Z) (ps : list string) (qs : list Z) :
  Forall (fun p => In p products) ps ->
  Forall (fun r => lookup prices (raw_product r) = Some (raw_unit_price r))
         (build ds ps qs).
Proof.
  intros H. revert ds qs. induction H as [| p ps Hp _ IH];
    intros [| d ds] [| q qs]; cbn [build]; constructor; auto.
  cbn [raw_product raw_unit_price].
  destruct (catalogue_price p Hp) as [v ->]. reflexivity.
Qed.

(** **** The NaN injection of line 46 *)

Lemma set_nan_length (i : nat) (df : list RawRow) :
  List.length (set_nan i df) = List.length df.
Proof.
  revert i. induction df as [| r df IH]; intros [| i]; simpl; auto.
Qed.

Lemma set_nan_other (i j : nat) (df : list RawRow) :
  i <> j -> nth_error (set_nan i df) j = nth_error df j.
Proof.
  revert i j. induction df as [| r df IH]; intros [| i] [| j] H; simpl; auto;
    contradiction.
Qed.

Lemma set_nan_count (i : nat) (df : list RawRow) (r : RawRow) :
  nth_error df i = Some r -> defined_row r ->
  absent_count (set_nan i df) = S (absent_count df).
Proof.
  unfold absent_count. revert i.
  induction df as [| r0 df IH]; intros [| i]; simpl; try discriminate.
  - intros [= ->] [q ->]. reflexivity.
  - intros Hi Hr. destruct (raw_quantity r0); simpl; auto.
Qed.

(** Whatever holds of every row and survives losing the quantity holds
    after the injection. *)
Lemma set_nan_Forall (P : RawRow -> Prop) (i : nat) (df : list RawRow) :
  (forall r, P r -> P (without_quantity r)) ->
  Forall P df -> Forall P (set_nan i df).
Proof.
  intros HP H. revert i. induction H as [| r df Hr Hdf IH]; intros [| i];
    simpl; constructor; auto.
Qed.

Lemma fold_set_nan_Forall (P : RawRow -> Prop) (idx : list nat)
      (df : list RawRow) :
  (forall r, P r -> P (without_quantity r)) ->
  Forall P df -> Forall P (fold_left (fun d i => set_nan i d) idx df).
Proof.
  intros HP. revert df. induction idx as [| i idx IH]; intros df H; simpl;
    auto using set_nan_Forall.
Qed.

Lemma fold_set_nan_length (idx : list nat) (df : list RawRow) :
  List.length (fold_left (fun d i => set_nan i d) idx df) = List.length df.
Proof.
  revert df. induction idx as [| i idx IH]; intros df; simpl; auto.
  now rewrite IH, set_nan_length.
Qed.

(** Injecting NaN at distinct labels whose cells are still defined adds as
    many absent cells as there are labels. *)
Lemma fold_set_nan_count (idx : list nat) (df : list RawRow) :
  NoDup idx ->
  (forall i, In i idx -> exists r, nth_error df i = Some r /\ defined_row r) ->
  absent_count (fold_left (fun d i => set_nan i d) idx df)
  = (absent_count df + List.length idx)%nat.
Proof.
  intros Hnd. revert df.
  induction Hnd as [| i idx Hi _ IH]; intros df Hdef; simpl; [lia |].
  destruct (Hdef i (or_introl eq_refl)) as (r & Hr & Hq).
  rewrite IH.
  - rewrite (set_nan_count _ _ _ Hr Hq). lia.
  - intros j Hj. rewrite set_nan_other.
    + apply Hdef. now right.
    + intros ->. contradiction.
Qed.

Lemma absent_count_defined (df : list RawRow) :
  Forall defined_row df -> absent_count df = 0%nat.
Proof.
  unfold absent_count. induction 1 as [| r df [q Hq] _ IH]; simpl; auto.
  now rewrite Hq.
Qed.

(** **** The generated frame *)

Lemma df_raw_length (u : time_unit) (w : Draws) :
  valid_draws w = true -> List.length (df_raw u w) = n.
Proof.
  intros Hw. apply valid_draws_spec in Hw as (Hp & _ & Hq & _).
  unfold df_raw. rewrite fold_set_nan_length.
  apply build_length; auto using dates_length.
Qed.

Lemma df_raw_range (u : time_unit) (w : Draws) :
  valid_draws w = true ->
  Forall (fun r => forall q, raw_quantity r = Some q -> (1 <= q <= 5)%Z)
         (df_raw u w).
Proof.
  intros Hw. apply valid_draws_spec in Hw as (_ & _ & _ & Hr & _).
  unfold df_raw. apply fold_set_nan_Forall.
  - simpl. discriminate.
  - now apply build_range.
Qed.

(** Every generated row carries the price table's entry for its product. *)
Lemma df_raw_priced (u : time_unit) (w : Draws) :
  valid_draws w = true ->
  Forall (fun r => lookup prices (raw_product r) = Some (raw_unit_price r))
         (df_raw u w).
Proof.
  intros Hw. apply valid_draws_spec in Hw as (_ & Hc & _).
  unfold df_raw. apply fold_set_nan_Forall; [auto |].
  now apply build_priced.
Qed.

End GeneratorFacts.

Section GeneratorClaims.

Import Csv Generator.

(** C9.  With n = 500 and fraction 0.05, whatever numpy draws (names of
    the catalogue, integers of [1, 6), distinct row labels), the generated
    set has n records, exactly floor(n * 0.05) = 25 of them with an absent
    quantity, and every defined quantity lies in [1, 5]. *)
Theorem generator_counts (u : time_unit) (w : Draws) :
  valid_draws w = true ->
  List.length (df_raw u w) = n
  /\ absent_count (df_raw u w) = missing_size
  /\ Z.of_nat missing_size = Qfloor (inject_Z (Z.of_nat n) * (5 # 100))
  /\ Forall (fun r => forall q, raw_quantity r = Some q -> (1 <= q <= 5)%Z)
            (df_raw u w).
Proof.
  intros Hw.
  split; [now apply df_raw_length |].
  split; [| split; [reflexivity | now apply df_raw_range]].
  apply valid_draws_spec in Hw as (Hp & _ & Hq & _ & Hm & Hlt & Hnd).
  assert (Hlen : List.length (build (dates u) (chosen_products w) (quantities w))
                 = n) by (apply build_length; auto using dates_length).
  pose proof (build_defined (dates u) (chosen_products w) (quantities w)) as Hdef.
  unfold df_raw. rewrite fold_set_nan_count; [| assumption |].
  - now rewrite absent_count_defined.
  - intros i Hi. rewrite Forall_forall in Hlt. specialize (Hlt i Hi).
    destruct (nth_error (build (dates u) (chosen_products w) (quantities w)) i)
      as [r |] eqn:Hr.
    + exists r. split; [reflexivity |].
      rewrite Forall_forall in Hdef. eapply Hdef, nth_error_In, Hr.
    + apply nth_error_None in Hr. lia.
Qed.

Lemma generator_counts_witness :
  List.length (df_raw unit_ns sample_draws) = n
  /\ absent_count (df_raw unit_ns sample_draws) = missing_size
  /\ Z.of_nat missing_size = Qfloor (inject_Z (Z.of_nat n) * (5 # 100))
  /\ Forall (fun r => forall q, raw_quantity r = Some q -> (1 <= q <= 5)%Z)
            (df_raw unit_ns sample_draws).
Proof.
  apply generator_counts. vm_compute. reflexivity.
Defined.

End GeneratorClaims.

(** * Properties of the dataset file *)

Section TextFacts.

Import Calendar Csv.
#[local] Open Scope string_scope.
#[local] Open Scope Z_scope.

(** Comparisons of the goal that [lia] shows to hold are replaced by
    [true]. *)
Ltac holds :=
  repeat match goal with
         | |- context [?a <=? ?b] =>
             replace (a <=? b) with true by (symmetry; apply Z.leb_le; lia)
         | |- context [?a <? ?b] =>
             replace (a <? b) with true by (symmetry; apply Z.ltb_lt; lia)
         end.

Lemma string_app_assoc (a b c : string) : (a ++ b) ++ c = a ++ b ++ c.
Proof. induction a as [| x a IH]; simpl; [reflexivity | now rewrite IH]. Qed.

Lemma string_app_nil_r (a : string) : a ++ EmptyString = a.
Proof. induction a as [| x a IH]; simpl; [reflexivity | now rewrite IH]. Qed.

Lemma all_chars_app (P : ascii -> bool) (a b : string) :
  all_chars P (a ++ b) = all_chars P a && all_chars P b.
Proof.
  induction a as [| c a IH]; simpl; [reflexivity |].
  now rewrite IH, andb_assoc.
Qed.

Lemma all_chars_impl (P Q : ascii -> bool) (s : string) :
  (forall c, P c = true -> Q c = true) ->
  all_chars P s = true -> all_chars Q s = true.
Proof.
  intros HPQ. induction s as [| c s IH]; simpl; [reflexivity |].
  intros H. apply andb_prop in H as [Hc Hs].
  now rewrite (HPQ c Hc), IH.
Qed.

(** **** Decimal digits *)

Lemma digit_code (d : Z) :
  0 <= d <= 9 -> Z.of_N (N_of_ascii (digit d)) = 48 + d.
Proof.
  intros H. unfold digit. rewrite N_ascii_embedding; lia.
Qed.

Lemma digit_value_digit (d : Z) : 0 <= d <= 9 -> digit_value (digit d) = Some d.
Proof.
  intros H. unfold digit_value. rewrite (digit_code d H).
  holds.
  cbn [andb]. f_equal. lia.
Qed.

Lemma is_digit_digit (d : Z) : 0 <= d <= 9 -> is_digit (digit d) = true.
Proof.
  intros H. unfold is_digit. now rewrite (digit_value_digit d H).
Qed.

Lemma is_digit_mod10 (v : Z) : is_digit (digit (v mod 10)) = true.
Proof. apply is_digit_digit. pose proof (Z.mod_pos_bound v 10). lia. Qed.

Lemma number_from_fixed (k : nat) (v acc : Z) (tail : string) :
  0 <= v < 10 ^ Z.of_nat k ->
  number_from acc (fixed_acc k v tail)
  = number_from (acc * 10 ^ Z.of_nat k + v) tail.
Proof.
  revert v tail. induction k as [| k IH]; intros v tail Hv.
  - simpl in *. f_equal. lia.
  - cbn [fixed_acc]. rewrite IH.
    + cbn [number_from]. rewrite digit_value_digit
        by (pose proof (Z.mod_pos_bound v 10); lia).
      f_equal. rewrite Nat2Z.inj_succ, Z.pow_succ_r by lia.
      pose proof (Z.div_mod v 10). lia.
    + rewrite Nat2Z.inj_succ, Z.pow_succ_r in Hv by lia.
      split; [apply Z.div_pos; lia |].
      apply Z.div_lt_upper_bound; lia.
Qed.

Lemma fixed_acc_length (k : nat) (v : Z) (tail : string) :
  String.length (fixed_acc k v tail) = (k + String.length tail)%nat.
Proof.
  revert v tail. induction k as [| k IH]; intros v tail; simpl; [reflexivity |].
  rewrite IH. simpl. lia.
Qed.

Lemma fixed_acc_app (k : nat) (v : Z) (tail : string) :
  fixed_acc k v tail = fixed k v ++ tail.
Proof.
  unfold fixed. revert v tail. induction k as [| k IH]; intros v tail; simpl;
    [reflexivity |].
  rewrite (IH (v / 10) (String _ tail)), (IH (v / 10) (String _ EmptyString)).
  now rewrite string_app_assoc.
Qed.

Lemma fixed_acc_digits (k : nat) (v : Z) (tail : string) :
  all_chars is_digit tail = true ->
  all_chars is_digit (fixed_acc k v tail) = true.
Proof.
  revert v tail. induction k as [| k IH]; intros v tail Ht; simpl;
    [assumption |].
  apply IH. simpl. now rewrite is_digit_mod10.
Qed.

Lemma fixed_digits (k : nat) (v : Z) : all_chars is_digit (fixed k v) = true.
Proof. now apply fixed_acc_digits. Qed.

Lemma number_fixed (k : nat) (v : Z) :
  (0 < k)%nat -> 0 <= v < 10 ^ Z.of_nat k -> number (fixed k v) = Some v.
Proof.
  intros Hk Hv. unfold number, fixed.
  pose proof (fixed_acc_length k v EmptyString) as Hlen.
  destruct (fixed_acc k v EmptyString) eqn:E; [simpl in Hlen; lia |].
  rewrite <- E. rewrite number_from_fixed by assumption.
  simpl; f_equal; lia.
Qed.

(** **** Integers *)

Lemma uint_digits (d : Decimal.uint) :
  all_chars is_digit (NilEmpty.string_of_uint d) = true.
Proof. induction d; simpl; auto. Qed.

Lemma string_of_Z_chars (z : Z) : all_chars is_int_char (string_of_Z z) = true.
Proof.
  assert (H : forall d,
             all_chars is_int_char (NilZero.string_of_uint d) = true).
  { intros d. apply all_chars_impl with is_digit.
    - intros c Hc. unfold is_int_char. now rewrite Hc.
    - destruct d; try apply uint_digits. reflexivity. }
  unfold string_of_Z. destruct (Z.to_int z); simpl; auto.
Qed.

Lemma Z_of_string_of_Z (z : Z) : Z_of_string (string_of_Z z) = Some z.
Proof.
  unfold Z_of_string, string_of_Z.
  rewrite NilZero.isi.
  - simpl. f_equal. apply DecimalZ.of_to.
  - destruct z; simpl; try discriminate.
    intros [= H]. now apply (DecimalPos.Unsigned.to_uint_nonnil p).
  - destruct z; simpl; try discriminate.
    intros [= H]. now apply (DecimalPos.Unsigned.to_uint_nonnil p).
Qed.

(** **** Floats holding whole numbers, and missing cells *)

Lemma int_char_not (x : ascii) (c : ascii) :
  is_int_char x = false -> is_int_char c = true -> not_char x c = true.
Proof.
  intros Hx Hc. unfold not_char.
  destruct (Ascii.eqb_spec c x) as [-> | _]; [congruence | reflexivity].
Qed.

Lemma string_of_Z_without (x : ascii) (z : Z) :
  is_int_char x = false -> all_chars (not_char x) (string_of_Z z) = true.
Proof.
  intros Hx. apply all_chars_impl with is_int_char.
  - intros c. now apply int_char_not.
  - apply string_of_Z_chars.
Qed.

Lemma split_at_dot_app (a b : string) :
  all_chars (not_char ".") a = true ->
  split_at_dot (a ++ String "." b) = (a, Some b).
Proof.
  induction a as [| c a IH]; simpl; [reflexivity |].
  intros H. apply andb_prop in H as [Hc Ha].
  unfold not_char in Hc. apply negb_true_iff in Hc. rewrite Hc.
  now rewrite (IH Ha).
Qed.

Lemma whole_float_of_string_of_whole_float (z : Z) :
  whole_float_of_string (string_of_whole_float z) = Some z.
Proof.
  unfold whole_float_of_string, string_of_whole_float.
  change ".0" with (String "." "0").
  rewrite split_at_dot_app by now apply string_of_Z_without.
  simpl. apply Z_of_string_of_Z.
Qed.

Lemma string_of_Z_nonempty (z : Z) : string_of_Z z <> EmptyString.
Proof.
  intros H. pose proof (Z_of_string_of_Z z) as E. rewrite H in E.
  discriminate.
Qed.

Lemma is_na_number (s : string) :
  all_chars is_number_char s = true -> s <> EmptyString -> is_na s = false.
Proof.
  intros Hs Hne. destruct (is_na s) eqn:E; [| reflexivity].
  unfold is_na in E. apply existsb_exists in E as (x & Hin & Hx).
  apply String.eqb_eq in Hx. subst x. unfold na_values in Hin.
  simpl in Hin.
  repeat (destruct Hin as [<- | Hin];
          [first [congruence | vm_compute in Hs; discriminate] |]).
  contradiction.
Qed.

Lemma read_quantity_format_quantity (q : option Z) :
  read_quantity (format_quantity q) = Some q.
Proof.
  destruct q as [z |]; [| reflexivity].
  unfold read_quantity, format_quantity.
  rewrite is_na_number.
  - now rewrite whole_float_of_string_of_whole_float.
  - unfold string_of_whole_float. rewrite all_chars_app.
    rewrite (all_chars_impl is_int_char is_number_char).
    + reflexivity.
    + intros c Hc. unfold is_number_char. now rewrite Hc.
    + apply string_of_Z_chars.
  - unfold string_of_whole_float. pose proof (string_of_Z_nonempty z).
    destruct (string_of_Z z); [congruence | discriminate].
Qed.

(** **** Fields of a line *)

Lemma split_app (x : ascii) (a b : string) :
  all_chars (not_char x) a = true ->
  split x (a ++ String x b) = a :: split x b.
Proof.
  induction a as [| c a IH]; simpl.
  - intros _. now rewrite Ascii.eqb_refl.
  - intros H. apply andb_prop in H as [Hc Ha].
    unfold not_char in Hc. apply negb_true_iff in Hc. rewrite Hc.
    now rewrite (IH Ha).
Qed.

Lemma split_single (x : ascii) (a : string) :
  all_chars (not_char x) a = true -> split x a = [a].
Proof.
  induction a as [| c a IH]; simpl; [reflexivity |].
  intros H. apply andb_prop in H as [Hc Ha].
  unfold not_char in Hc. apply negb_true_iff in Hc. rewrite Hc.
  now rewrite (IH Ha).
Qed.

Lemma split_row (d p q u : string) :
  all_chars (not_char ",") d = true ->
  all_chars (not_char ",") p = true ->
  all_chars (not_char ",") q = true ->
  all_chars (not_char ",") u = true ->
  split "," (String.concat "," [d; p; q; u]) = [d; p; q; u].
Proof.
  intros Hd Hp Hq Hu. simpl.
  now rewrite !split_app, split_single.
Qed.

(** **** Dates *)

Lemma day_range_In (k : nat) (lo days : Z) :
  lo <= days < lo + Z.of_nat k -> In days (day_range lo k).
Proof.
  revert lo. induction k as [| k IH]; intros lo H; [lia |].
  cbn [day_range]. destruct (Z.eq_dec lo days) as [-> | Hne]; [now left |].
  right. apply IH. lia.
Qed.

Lemma day_range_ok (lo hi days : Z) :
  forallb day_ok (day_range lo (Z.to_nat (hi - lo + 1))) = true ->
  lo <= days <= hi -> day_ok days = true.
Proof.
  intros H Hd. rewrite forallb_forall in H. apply H.
  apply day_range_In. lia.
Qed.

Lemma days_of_2024_ok (days : Z) :
  first_day <= days <= last_day -> day_ok days = true.
Proof.
  apply day_range_ok. vm_compute. reflexivity.
Qed.

Lemma get_resolution_fits (values : list Z) (t : Z) :
  In t values -> fits (get_resolution values) t.
Proof.
  intros Hin. unfold get_resolution.
  destruct (forallb (multiple_of ns_per_day) values) eqn:E0.
  { rewrite forallb_forall in E0. apply Z.eqb_eq, E0, Hin. }
  destruct (forallb (multiple_of 1000) values) eqn:E1; simpl; [| exact I].
  destruct (forallb (multiple_of 1000000) values) eqn:E2; simpl.
  2:{ rewrite forallb_forall in E1. apply Z.eqb_eq, E1, Hin. }
  destruct (forallb (multiple_of 1000000000) values) eqn:E3; simpl.
  - rewrite forallb_forall in E3. apply Z.eqb_eq, E3, Hin.
  - rewrite forallb_forall in E2. apply Z.eqb_eq, E2, Hin.
Qed.

Lemma two_digits_fixed (v : Z) :
  0 <= v < 100 ->
  exists a b, fixed 2 v = String a (String b EmptyString)
              /\ two_digits a b = Some v.
Proof.
  intros Hv. eexists. eexists. split; [reflexivity |].
  unfold two_digits. apply (number_fixed 2 v); [lia | assumption].
Qed.

Lemma four_digits_fixed (v : Z) :
  0 <= v < 10000 ->
  exists a b c d,
    fixed 4 v = String a (String b (String c (String d EmptyString)))
    /\ number (String a (String b (String c (String d EmptyString)))) = Some v.
Proof.
  intros Hv. do 4 eexists. split; [reflexivity |].
  apply (number_fixed 4 v); [lia | assumption].
Qed.

Lemma parse_fraction_fixed (k : nat) (v : Z) :
  (1 <= k <= 9)%nat -> 0 <= v < 10 ^ Z.of_nat k ->
  parse_fraction (fixed k v) = Some (v * 10 ^ (9 - Z.of_nat k)).
Proof.
  intros Hk Hv. unfold parse_fraction, fixed.
  rewrite fixed_acc_length. simpl String.length. rewrite Nat.add_0_r.
  holds.
  cbn [andb]. change (fixed_acc k v EmptyString) with (fixed k v).
  rewrite number_fixed; [reflexivity | lia | assumption].
Qed.

Lemma parse_time_chars (h1 h2 m1 m2 s1 s2 : ascii) (rest : string)
      (h mi sec : Z) :
  two_digits h1 h2 = Some h -> two_digits m1 m2 = Some mi ->
  two_digits s1 s2 = Some sec ->
  0 <= h < 24 -> 0 <= mi < 60 -> 0 <= sec < 60 ->
  parse_time (String h1 (String h2 (String ":" (String m1 (String m2
                (String ":" (String s1 (String s2 rest))))))))
  = match
      match rest with
      | EmptyString => Some 0
      | String dot frac =>
          if Ascii.eqb dot "." then parse_fraction frac else None
      end
    with
    | Some f => Some (((h * 60 + mi) * 60 + sec) * ns_per_second + f)
    | None => None
    end.
Proof.
  intros H1 H2 H3 Hh Hm Hs. unfold parse_time.
  rewrite H1, H2, H3. cbn [Ascii.eqb Bool.eqb andb].
  holds.
  reflexivity.
Qed.

Lemma parse_date_chars (y1 y2 y3 y4 m1 m2 d1 d2 : ascii) (rest : string)
      (y m d : Z) :
  number (String y1 (String y2 (String y3 (String y4 EmptyString)))) = Some y ->
  two_digits m1 m2 = Some m -> two_digits d1 d2 = Some d ->
  1 <= m <= 12 -> 1 <= d <= days_in_month y m ->
  parse_date (String y1 (String y2 (String y3 (String y4 (String "-"
                (String m1 (String m2 (String "-"
                (String d1 (String d2 rest))))))))))
  = match rest with
    | EmptyString => Some (days_from_civil y m d * ns_per_day)
    | String sep time =>
        if Ascii.eqb sep " " || Ascii.eqb sep "T" then
          match parse_time time with
          | Some rem => Some (days_from_civil y m d * ns_per_day + rem)
          | None => None
          end
        else None
    end.
Proof.
  intros H1 H2 H3 Hm Hd. unfold parse_date.
  rewrite H1, H2, H3. cbn [Ascii.eqb Bool.eqb andb].
  holds.
  reflexivity.
Qed.

Lemma days_in_month_le (y m : Z) : days_in_month y m <= 31.
Proof.
  unfold days_in_month. generalize (Z.to_nat (m - 1)) as k. intros k.
  assert (Hall : Forall (fun len => len <= 31)
                        (days_per_month (is_leapyear y)))
    by (unfold days_per_month; destruct (is_leapyear y);
        repeat constructor; lia).
  destruct (Nat.lt_ge_cases k (List.length (days_per_month (is_leapyear y))))
    as [Hk | Hk].
  - rewrite Forall_forall in Hall. apply Hall, nth_In, Hk.
  - rewrite nth_overflow by assumption. lia.
Qed.

Lemma format_day_parts (days : Z) :
  day_ok days = true ->
  exists y m d,
    format_day days = fixed 4 y ++ "-" ++ fixed 2 m ++ "-" ++ fixed 2 d
    /\ 0 <= y < 10000 /\ 1 <= m <= 12 /\ 1 <= d <= days_in_month y m
    /\ d < 100
    /\ days_from_civil y m d = days.
Proof.
  unfold day_ok, format_day.
  destruct (civil_from_days days) as [[y m] d]. intros H.
  repeat (apply andb_prop in H as [H ?]).
  repeat match goal with
         | E : (_ <=? _) = true |- _ => apply Z.leb_le in E
         | E : (_ =? _) = true |- _ => apply Z.eqb_eq in E
         | E : String.eqb _ _ = true |- _ => apply String.eqb_eq in E
         end.
  exists y, m, d.
  assert (Hd100 : d < 100).
  { pose proof (days_in_month_le y m). lia. }
  repeat split; try assumption; try lia.
  now match goal with E : string_of_Z _ = _ |- _ => rewrite E end.
Qed.

(** Every text [format_date] gives for a day of 2024 reads back as the
    timestamp, as long as the resolution loses nothing of it. *)
Lemma parse_date_format_date (res : resolution) (t : Z) :
  day_ok (t / ns_per_day) = true -> fits res t ->
  parse_date (format_date res t) = Some t.
Proof.
  intros Hday Hfit.
  destruct (format_day_parts _ Hday)
    as (y & m & d & Hfmt & Hy & Hm & Hd & Hd100 & Hback).
  destruct (four_digits_fixed y Hy) as (y1 & y2 & y3 & y4 & Ey & Ny).
  destruct (two_digits_fixed m ltac:(lia)) as (m1 & m2 & Em & Nm).
  destruct (two_digits_fixed d ltac:(lia)) as (d1 & d2 & Ed & Nd).
  set (rem := t mod ns_per_day) in *.
  set (secs := rem / ns_per_second).
  assert (Hrem : 0 <= rem < ns_per_day)
    by (apply Z.mod_pos_bound; reflexivity).
  assert (Ht : t = (t / ns_per_day) * ns_per_day + rem)
    by (unfold rem; pose proof (Z.div_mod t ns_per_day);
        unfold ns_per_day in *; lia).
  assert (Hsecs : 0 <= secs < 86400).
  { unfold secs, ns_per_day, ns_per_second in *. split.
    - apply Z.div_pos; lia.
    - apply Z.div_lt_upper_bound; lia. }
  destruct (two_digits_fixed (secs / 3600))
    as (h1 & h2 & Eh & Nh).
  { split; [apply Z.div_pos; lia | apply Z.div_lt_upper_bound; lia]. }
  destruct (two_digits_fixed (secs / 60 mod 60))
    as (i1 & i2 & Ei & Ni).
  { pose proof (Z.mod_pos_bound (secs / 60) 60). lia. }
  destruct (two_digits_fixed (secs mod 60))
    as (s1 & s2 & Es & Ns).
  { pose proof (Z.mod_pos_bound secs 60). lia. }
  assert (Htime : forall rest,
    format_time rem ++ rest
    = String h1 (String h2 (String ":" (String i1 (String i2
        (String ":" (String s1 (String s2 rest)))))))).
  { intros rest. unfold format_time. fold secs. rewrite Eh, Ei, Es.
    reflexivity. }
  assert (Hdate : forall rest,
    format_day (t / ns_per_day) ++ rest
    = String y1 (String y2 (String y3 (String y4 (String "-"
        (String m1 (String m2 (String "-"
        (String d1 (String d2 rest)))))))))).
  { intros rest. rewrite Hfmt, Ey, Em, Ed. reflexivity. }
  assert (Hparse_time : forall rest f,
    match rest with
    | EmptyString => Some 0
    | String dot frac =>
        if Ascii.eqb dot "." then parse_fraction frac else None
    end = Some f ->
    rem = secs * ns_per_second + f ->
    parse_date (format_day (t / ns_per_day) ++ " " ++ format_time rem ++ rest)
    = Some t).
  { intros rest f Hf Hsum.
    rewrite Hdate. rewrite (parse_date_chars _ _ _ _ _ _ _ _ _ y m d)
      by assumption.
    cbn [append Ascii.eqb Bool.eqb orb andb]. rewrite Htime.
    rewrite (parse_time_chars _ _ _ _ _ _ _
               (secs / 3600) (secs / 60 mod 60) (secs mod 60)); try assumption.
    - rewrite Hf. f_equal. rewrite Hback.
      rewrite Ht at 2. rewrite Hsum. unfold ns_per_second.
      pose proof (Z.div_mod secs 60 ltac:(lia)).
      pose proof (Z.div_mod (secs / 60) 60 ltac:(lia)).
      assert (secs / 3600 = secs / 60 / 60)
        by (rewrite Z.div_div by lia; reflexivity).
      lia.
    - split; [apply Z.div_pos; lia | apply Z.div_lt_upper_bound; lia].
    - apply Z.mod_pos_bound; lia.
    - apply Z.mod_pos_bound; lia. }
  assert (Hns : 0 <= rem mod ns_per_second < 1000000000)
    by (apply Z.mod_pos_bound; reflexivity).
  assert (Hsplit : rem = secs * ns_per_second + rem mod ns_per_second).
  { unfold secs. pose proof (Z.div_mod rem ns_per_second).
    unfold ns_per_second in *. lia. }
  assert (Hmod9 : rem mod ns_per_second = t mod 1000000000).
  { unfold rem, ns_per_second, ns_per_day.
    apply Z.mod_mod_divide. exists 86400. reflexivity. }
  unfold format_date. fold rem.
  destruct res; cbn [fits] in Hfit.
  - (* the date alone *)
    rewrite <- (string_app_nil_r (format_day _)), Hdate.
    rewrite (parse_date_chars _ _ _ _ _ _ _ _ _ y m d) by assumption.
    f_equal. rewrite Hback. fold rem in Hfit. lia.
  - (* seconds *)
    rewrite <- (string_app_nil_r (format_time rem)).
    apply (Hparse_time EmptyString 0); [reflexivity |]. lia.
  - (* milliseconds *)
    apply (Hparse_time _ (rem mod ns_per_second)); [| assumption].
    cbn [append Ascii.eqb Bool.eqb].
    rewrite (parse_fraction_fixed 3).
    + f_equal. rewrite Hmod9 in *.
      assert (Hm6 : (t mod 1000000000) mod 1000000 = 0).
      { rewrite Z.mod_mod_divide; [assumption |]. exists 1000. reflexivity. }
      pose proof (Z.div_mod (t mod 1000000000) 1000000 ltac:(lia)).
      change (10 ^ (9 - Z.of_nat 3)) with 1000000. lia.
    + lia.
    + split; [apply Z.div_pos; lia |].
      apply Z.div_lt_upper_bound; [lia |].
      change (10 ^ Z.of_nat 3) with 1000. lia.
  - (* microseconds *)
    apply (Hparse_time _ (rem mod ns_per_second)); [| assumption].
    cbn [append Ascii.eqb Bool.eqb].
    rewrite (parse_fraction_fixed 6).
    + f_equal. rewrite Hmod9 in *.
      assert (Hm3 : (t mod 1000000000) mod 1000 = 0).
      { rewrite Z.mod_mod_divide; [assumption |]. exists 1000000. reflexivity. }
      pose proof (Z.div_mod (t mod 1000000000) 1000 ltac:(lia)).
      change (10 ^ (9 - Z.of_nat 6)) with 1000. lia.
    + lia.
    + split; [apply Z.div_pos; lia |].
      apply Z.div_lt_upper_bound; [lia |].
      change (10 ^ Z.of_nat 6) with 1000000. lia.
  - (* nanoseconds *)
    apply (Hparse_time _ (rem mod ns_per_second)); [| assumption].
    cbn [append Ascii.eqb Bool.eqb].
    rewrite (parse_fraction_fixed 9).
    + f_equal. change (10 ^ (9 - Z.of_nat 9)) with 1. lia.
    + lia.
    + change (10 ^ Z.of_nat 9) with 1000000000. lia.
Qed.

(** **** Rows and frames *)

Lemma date_chars_fixed (k : nat) (v : Z) :
  all_chars is_date_char (fixed k v) = true.
Proof.
  apply all_chars_impl with is_digit; [| apply fixed_digits].
  intros c Hc. unfold is_date_char, is_int_char. now rewrite Hc.
Qed.

Lemma date_chars_Z (z : Z) : all_chars is_date_char (string_of_Z z) = true.
Proof.
  apply all_chars_impl with is_int_char; [| apply string_of_Z_chars].
  intros c Hc. unfold is_date_char. now rewrite Hc.
Qed.

Lemma format_date_chars (res : resolution) (t : Z) :
  all_chars is_date_char (format_date res t) = true.
Proof.
  unfold format_date, format_day, format_time.
  destruct (civil_from_days (t / ns_per_day)) as [[y m] d].
  destruct res;
    rewrite ?all_chars_app, ?date_chars_fixed, ?date_chars_Z; reflexivity.
Qed.

Lemma format_date_no_comma (res : resolution) (t : Z) :
  all_chars (not_char ",") (format_date res t) = true.
Proof.
  apply all_chars_impl with is_date_char; [| apply format_date_chars].
  intros c Hc. unfold not_char.
  destruct (Ascii.eqb_spec c ",") as [-> | _]; [discriminate | reflexivity].
Qed.

Lemma format_quantity_no_comma (q : option Z) :
  all_chars (not_char ",") (format_quantity q) = true.
Proof.
  destruct q as [z |]; [| reflexivity].
  unfold format_quantity, string_of_whole_float.
  rewrite all_chars_app, string_of_Z_without; reflexivity.
Qed.

Create HintDb csv.
#[local] Hint Resolve format_date_no_comma format_quantity_no_comma
  string_of_Z_without : csv.
#[local] Hint Extern 1 (is_int_char _ = false) => reflexivity : csv.

Lemma read_csv_row_to_csv_row (res : resolution) (r : RawRow) :
  csv_safe r = true -> fits res (raw_date r) ->
  read_csv_row (to_csv_row res r) = Some r.
Proof.
  unfold csv_safe. intros H Hfit.
  apply andb_prop in H as [H Hna]. apply andb_prop in H as [Hday Hp].
  apply negb_true_iff in Hna.
  unfold read_csv_row, to_csv_row.
  rewrite split_row by auto with csv.
  rewrite parse_date_format_date by assumption.
  rewrite read_quantity_format_quantity, Z_of_string_of_Z, Hna.
  now destruct r.
Qed.

Lemma read_rows_to_csv_rows (res : resolution) (df : list RawRow) :
  forallb csv_safe df = true ->
  (forall r, In r df -> fits res (raw_date r)) ->
  read_rows (map (to_csv_row res) df) = Some df.
Proof.
  induction df as [| r df IH]; simpl; [reflexivity |].
  intros H Hfit. apply andb_prop in H as [Hr Hdf].
  rewrite read_csv_row_to_csv_row by auto.
  now rewrite IH by auto.
Qed.

(** Writing a frame and reading the file back gives the frame: same rows,
    same order, same cells, NaN where NaN was. *)
Lemma read_csv_to_csv (df : list RawRow) :
  forallb csv_safe df = true -> read_csv (to_csv df) = Some df.
Proof.
  intros H. unfold read_csv, to_csv. rewrite String.eqb_refl.
  apply read_rows_to_csv_rows; [assumption |].
  intros r Hr. apply get_resolution_fits. now apply in_map.
Qed.

(** **** The generated frame *)

Lemma set_nan_dates (i : nat) (df : list RawRow) :
  map raw_date (Generator.set_nan i df) = map raw_date df.
Proof.
  revert i. induction df as [| r df IH]; intros [| i]; simpl; auto.
  now rewrite IH.
Qed.

Lemma set_nan_products (i : nat) (df : list RawRow) :
  map raw_product (Generator.set_nan i df) = map raw_product df.
Proof.
  revert i. induction df as [| r df IH]; intros [| i]; simpl; auto.
  now rewrite IH.
Qed.

Lemma build_dates (ds : list Z) (ps : list string) (qs : list Z) :
  List.length ps = List.length ds -> List.length qs = List.length ds ->
  map raw_date (Generator.build ds ps qs) = ds.
Proof.
  revert ps qs. induction ds as [| d ds IH]; intros [| p ps] [| q qs];
    simpl; try discriminate; auto.
  intros [= H1] [= H2]. now rewrite IH.
Qed.

Lemma build_products (ds : list Z) (ps : list string) (qs : list Z) :
  List.length ps = List.length ds -> List.length qs = List.length ds ->
  map raw_product (Generator.build ds ps qs) = ps.
Proof.
  revert ps qs. induction ds as [| d ds IH]; intros [| p ps] [| q qs];
    simpl; try discriminate; auto.
  intros [= H1] [= H2]. now rewrite IH.
Qed.

Lemma fold_set_nan_dates (idx : list nat) (df : list RawRow) :
  map raw_date (fold_left (fun d i => Generator.set_nan i d) idx df)
  = map raw_date df.
Proof.
  revert df. induction idx as [| i idx IH]; intros df; simpl; [reflexivity |].
  now rewrite IH, set_nan_dates.
Qed.

Lemma fold_set_nan_products (idx : list nat) (df : list RawRow) :
  map raw_product (fold_left (fun d i => Generator.set_nan i d) idx df)
  = map raw_product df.
Proof.
  revert df. induction idx as [| i idx IH]; intros df; simpl; [reflexivity |].
  now rewrite IH, set_nan_products.
Qed.

Lemma df_raw_dates (u : Generator.time_unit) (w : Generator.Draws) :
  Generator.valid_draws w = true ->
  map raw_date (Generator.df_raw u w) = Generator.dates u.
Proof.
  intros Hw. apply valid_draws_spec in Hw as (Hp & _ & Hq & _).
  unfold Generator.df_raw. rewrite fold_set_nan_dates.
  apply build_dates; rewrite dates_length; assumption.
Qed.

Lemma df_raw_products (u : Generator.time_unit) (w : Generator.Draws) :
  Generator.valid_draws w = true ->
  map raw_product (Generator.df_raw u w) = Generator.chosen_products w.
Proof.
  intros Hw. apply valid_draws_spec in Hw as (Hp & _ & Hq & _).
  unfold Generator.df_raw. rewrite fold_set_nan_products.
  apply build_products; rewrite dates_length; assumption.
Qed.

Lemma dates_ok (u : Generator.time_unit) :
  forallb (fun t => day_ok (t / ns_per_day)) (Generator.dates u) = true.
Proof. destruct u; vm_compute; reflexivity. Qed.

Lemma products_ok :
  forallb (fun p => all_chars (not_char ",") p && negb (is_na p))
          Catalogue.products = true.
Proof. vm_compute. reflexivity. Qed.

(** A frame of catalogue products dated within 2024 survives the file,
    whatever the instants are: the round trip does not rest on the exact
    values [date_range] gives. *)
Lemma read_csv_to_csv_2024 (df : list RawRow) :
  Forall (fun r => first_day * ns_per_day <= raw_date r
                   < (last_day + 1) * ns_per_day
                   /\ In (raw_product r) Catalogue.products) df ->
  read_csv (to_csv df) = Some df.
Proof.
  intros H. apply read_csv_to_csv, forallb_forall. intros r Hr.
  rewrite Forall_forall in H. destruct (H r Hr) as [Hd Hp].
  unfold csv_safe. rewrite days_of_2024_ok.
  - pose proof products_ok as Hok. rewrite forallb_forall in Hok.
    now apply Hok.
  - change ns_per_day with 86400000000000 in *.
    split.
    + apply Z.div_le_lower_bound; lia.
    + assert (raw_date r / 86400000000000 < last_day + 1); [| lia].
      apply Z.div_lt_upper_bound; lia.
Qed.

Lemma df_raw_csv_safe (u : Generator.time_unit) (w : Generator.Draws) :
  Generator.valid_draws w = true ->
  forallb csv_safe (Generator.df_raw u w) = true.
Proof.
  intros Hw. pose proof (df_raw_dates u w Hw) as Hd.
  pose proof (df_raw_products u w Hw) as Hp.
  apply valid_draws_spec in Hw as (_ & Hc & _).
  apply forallb_forall. intros r Hr. unfold csv_safe.
  assert (Hday : day_ok (raw_date r / ns_per_day) = true).
  { pose proof (dates_ok u) as Hok. rewrite forallb_forall in Hok.
    apply Hok. rewrite <- Hd. now apply in_map. }
  rewrite Hday. pose proof products_ok as Hok.
  rewrite forallb_forall in Hok. apply Hok.
  rewrite Forall_forall in Hc. apply Hc. rewrite <- Hp. now apply in_map.
Qed.

(** **** Layouts *)

Lemma matches_digits_app (d layout s : string) :
  all_chars is_digit d = true -> matches layout s = true ->
  matches (hashes (String.length d) ++ layout) (d ++ s) = true.
Proof.
  intros Hd Hs. induction d as [| c d IH]; simpl; [assumption |].
  simpl in Hd. apply andb_prop in Hd as [Hc Hd].
  now rewrite Hc, IH.
Qed.

Lemma matches_fixed_app (k : nat) (v : Z) (layout s : string) :
  matches layout s = true ->
  matches (hashes k ++ layout) (fixed k v ++ s) = true.
Proof.
  intros Hs.
  replace k with (String.length (fixed k v)) at 1.
  - apply matches_digits_app; [apply fixed_digits | assumption].
  - unfold fixed. rewrite fixed_acc_length. simpl. lia.
Qed.

Lemma format_date_nano_layout (t : Z) :
  day_ok (t / ns_per_day) = true ->
  matches (timestamp_layout 9) (format_date ResNano t) = true.
Proof.
  intros Hday.
  destruct (format_day_parts _ Hday) as (y & m & d & Hfmt & _).
  unfold format_date, format_time. rewrite Hfmt.
  rewrite !string_app_assoc.
  rewrite <- (string_app_nil_r (fixed 9 _)).
  change (timestamp_layout 9) with
    (hashes 4 ++ String "-" (hashes 2 ++ String "-" (hashes 2 ++ String " "
       (hashes 2 ++ String ":" (hashes 2 ++ String ":" (hashes 2 ++ String "."
       (hashes 9 ++ EmptyString))))))).
  repeat (apply matches_fixed_app;
          cbn [append matches Ascii.eqb Bool.eqb andb]).
  reflexivity.
Qed.

Lemma format_date_micro_layout (t : Z) :
  day_ok (t / ns_per_day) = true ->
  matches (timestamp_layout 6) (format_date ResMicro t) = true.
Proof.
  intros Hday.
  destruct (format_day_parts _ Hday) as (y & m & d & Hfmt & _).
  unfold format_date, format_time. rewrite Hfmt.
  rewrite !string_app_assoc.
  rewrite <- (string_app_nil_r (fixed 6 _)).
  change (timestamp_layout 6) with
    (hashes 4 ++ String "-" (hashes 2 ++ String "-" (hashes 2 ++ String " "
       (hashes 2 ++ String ":" (hashes 2 ++ String ":" (hashes 2 ++ String "."
       (hashes 6 ++ EmptyString))))))).
  repeat (apply matches_fixed_app;
          cbn [append matches Ascii.eqb Bool.eqb andb]).
  reflexivity.
Qed.

Lemma uint_plain (d : Decimal.uint) :
  d <> Decimal.Nil -> is_digits (NilZero.string_of_uint d) = true.
Proof.
  intros Hd. pose proof (uint_digits d) as H.
  destruct d; try congruence; exact H.
Qed.

Lemma is_digits_plain (s : string) :
  is_digits s = true -> is_plain_integer s = true.
Proof.
  destruct s as [| c s]; [discriminate |]. intros H.
  unfold is_plain_integer.
  destruct (Ascii.eqb_spec c "-") as [-> | _]; [discriminate | assumption].
Qed.

Lemma string_of_Z_plain (z : Z) : is_plain_integer (string_of_Z z) = true.
Proof.
  unfold string_of_Z. destruct z as [| p | p]; simpl.
  - reflexivity.
  - apply is_digits_plain, uint_plain, DecimalPos.Unsigned.to_uint_nonnil.
  - apply uint_plain, DecimalPos.Unsigned.to_uint_nonnil.
Qed.

(** The generated column is written at the resolution of its unit: some
    instant is not a whole millisecond. *)
Lemma dates_resolution (u : Generator.time_unit) :
  get_resolution (Generator.dates u)
  = match u with
    | Generator.unit_ns => ResNano
    | Generator.unit_us => ResMicro
    end.
Proof. destruct u; vm_compute; reflexivity. Qed.

End TextFacts.

Section FileClaims.

Import Csv Generator.

(** C4.  Whatever numpy draws, the file written from the generated record
    set loads back as that record set: same row count, same rows in the
    same order, the same value in every column, absent quantities absent. *)
Theorem generated_round_trip (u : time_unit) (w : Draws) :
  valid_draws w = true -> read_csv (to_csv (df_raw u w)) = Some (df_raw u w).
Proof.
  intros Hw. apply read_csv_to_csv, df_raw_csv_safe, Hw.
Qed.

Lemma generated_round_trip_witness :
  read_csv (to_csv (df_raw unit_ns sample_draws)) = Some (df_raw unit_ns sample_draws).
Proof.
  apply generated_round_trip. vm_compute. reflexivity.
Defined.

(** C5 (as the code has it).  The file written from a generated record set
    has the header line and one line per record; the date field of every
    line is date, time of day and the fraction of the second
    ([YYYY-MM-DD HH:MM:SS.f...f], with nine digits when pandas generates
    the instants in nanoseconds and six when in microseconds: the 500
    instants are evenly spaced, not whole days), and the quantity field is
    empty when absent and otherwise the whole number followed by [.0] (the
    column is float64 since the NaN injection). *)
Theorem generated_file_layout (u : time_unit) (w : Draws) :
  valid_draws w = true ->
  exists lines,
    to_csv (df_raw u w) = "date,product,quantity,unit_price"%string :: lines
    /\ List.length lines = n
    /\ Forall (fun line =>
         exists d p q c,
           split "," line = [d; p; q; c]
           /\ matches (timestamp_layout (fraction_digits u)) d = true
           /\ (q = EmptyString
               \/ exists ip, q = (ip ++ ".0")%string
                             /\ is_plain_integer ip = true)) lines.
Proof.
  intros Hw. unfold to_csv. eexists. split; [reflexivity |].
  rewrite (df_raw_dates u w Hw), dates_resolution. split.
  - rewrite length_map. apply (df_raw_length u w Hw).
  - apply Forall_map, Forall_forall. intros r Hr.
    pose proof (df_raw_csv_safe u w Hw) as Hsafe.
    rewrite forallb_forall in Hsafe. specialize (Hsafe r Hr).
    unfold csv_safe in Hsafe.
    apply andb_prop in Hsafe as [Hsafe _].
    apply andb_prop in Hsafe as [Hday Hp].
    exists (format_date (match u with
                         | unit_ns => ResNano
                         | unit_us => ResMicro
                         end) (raw_date r)), (raw_product r),
      (format_quantity (raw_quantity r)), (string_of_Z (raw_unit_price r)).
    split; [| split].
    + apply split_row; auto using format_date_no_comma,
        format_quantity_no_comma, string_of_Z_without.
    + destruct u; cbn [fraction_digits];
        [now apply format_date_nano_layout
        | now apply format_date_micro_layout].
    + destruct (raw_quantity r) as [z |]; [right | now left].
      exists (string_of_Z z). split; [reflexivity | apply string_of_Z_plain].
Qed.

Lemma generated_file_layout_witness :
  exists lines,
    to_csv (df_raw unit_us sample_draws)
    = "date,product,quantity,unit_price"%string :: lines
    /\ List.length lines = n
    /\ Forall (fun line =>
         exists d p q c,
           split "," line = [d; p; q; c]
           /\ matches (timestamp_layout 6) d = true
           /\ (q = EmptyString
               \/ exists ip, q = (ip ++ ".0")%string
                             /\ is_plain_integer ip = true)) lines.
Proof.
  apply (generated_file_layout unit_us). vm_compute. reflexivity.
Defined.

(** C5 as the specification states it fails, in either unit: in the file
    of the sample draws the record of 2024-01-19 is written
    [2024-01-19 06:52:39.919839679,Webcam,1.0,79] (nanoseconds) or
    [2024-01-19 06:52:39.919839,Webcam,1.0,79] (microseconds); the date
    field is not [YYYY-MM-DD] and the quantity field [1.0] is not a plain
    integer. *)
Lemma plain_date_and_integer_fields_refuted :
  ~ (forall w, valid_draws w = true ->
               Forall spec_row_layout (tl (to_csv (df_raw unit_ns w))))
  /\ ~ (forall w, valid_draws w = true ->
                  Forall spec_row_layout (tl (to_csv (df_raw unit_us w)))).
Proof.
  split; intros H; specialize (H sample_draws eq_refl);
    rewrite Forall_forall in H.
  - destruct (H "2024-01-19 06:52:39.919839679,Webcam,1.0,79"%string)
      as (d & p & q & c & Hs & Hd & _).
    + apply nth_error_In with 25%nat. vm_compute. reflexivity.
    + vm_compute in Hs. injection Hs as <- _ _ _.
      vm_compute in Hd. discriminate.
  - destruct (H "2024-01-19 06:52:39.919839,Webcam,1.0,79"%string)
      as (d & p & q & c & Hs & Hd & _).
    + apply nth_error_In with 25%nat. vm_compute. reflexivity.
    + vm_compute in Hs. injection Hs as <- _ _ _.
      vm_compute in Hd. discriminate.
Qed.

(** The same two lines fail on the quantity field alone. *)
Example quantity_field_is_float :
  split "," "2024-01-19 06:52:39.919839,Webcam,1.0,79"
  = ["2024-01-19 06:52:39.919839"; "Webcam"; "1.0"; "79"]%string
  /\ is_plain_integer "1.0" = false
  /\ matches date_layout "2024-01-19 06:52:39.919839" = false
  /\ matches date_layout "2024-01-19 06:52:39.919839679" = false.
Proof. repeat split. Qed.

End FileClaims.

(** * The frame the cleaner receives in a run of the script *)

Section PipelineFacts.

Import Cleaner Csv Generator.

(** In every run the unit prices of the loaded frame are strictly positive:
    each is the price table's entry for the product. *)
Lemma loaded_priced (u : time_unit) (w : Draws) :
  valid_draws w = true ->
  Forall (fun r => 0 < unit_price r) (loaded (df_raw u w)).
Proof.
  intros Hw. unfold loaded. apply Forall_map.
  pose proof (df_raw_priced u w Hw) as H. revert H. apply Forall_impl.
  intros r Hr. cbn [unit_price]. apply price_positive in Hr.
  change 0 with (inject_Z 0). now rewrite <- Zlt_Qlt.
Qed.

(** In every run the defined quantities of the loaded frame lie in
    [1, 5]. *)
Lemma loaded_range (u : time_unit) (w : Draws) :
  valid_draws w = true ->
  Forall (fun r => forall q, quantity r = Some q -> 1 <= q <= 5)
         (loaded (df_raw u w)).
Proof.
  intros Hw. unfold loaded. apply Forall_map.
  pose proof (df_raw_range u w Hw) as H. revert H. apply Forall_impl.
  intros r Hr q. cbn [quantity].
  destruct (raw_quantity r) as [z |]; [| discriminate].
  intros [= <-]. specialize (Hr z eq_refl).
  change 1 with (inject_Z 1). change 5 with (inject_Z 5).
  rewrite <- !Zle_Qle. exact Hr.
Qed.

End PipelineFacts.

(** * Further properties of the generator, lines 30-46 *)

Section GeneratorMore.

Import Catalogue Calendar Csv Generator.
#[local] Open Scope Z_scope.

Lemma increasing_sorted (l : list Z) :
  increasing l = true -> StronglySorted Z.lt l.
Proof.
  intros H. apply Sorted_StronglySorted; [exact Z.lt_trans |].
  induction l as [| a l IH]; [constructor |].
  destruct l as [| b rest]; [repeat constructor |].
  cbn [increasing] in H. apply andb_prop in H as [Hab H].
  constructor; [now apply IH | constructor; now apply Z.ltb_lt].
Qed.

Lemma sorted_nth_error (l : list Z) (i j : nat) (a b : Z) :
  StronglySorted Z.lt l -> (i < j)%nat ->
  nth_error l i = Some a -> nth_error l j = Some b -> a < b.
Proof.
  intros Hs. revert i j. induction Hs as [| x l Hs IH Hx]; intros i j Hij Ha Hb.
  - now destruct i.
  - destruct j as [| j]; [lia |]. cbn [nth_error] in Hb.
    destruct i as [| i].
    + injection Ha as <-. rewrite Forall_forall in Hx.
      apply Hx. now apply nth_error_In with j.
    + apply (IH i j); [lia | exact Ha | exact Hb].
Qed.

Lemma nth_error_combine_seq (l : list Z) (k i : nat) (t : Z) :
  nth_error l i = Some t ->
  In ((k + i)%nat, t) (combine (seq k (List.length l)) l).
Proof.
  revert k i. induction l as [| x l IH]; intros k [| i] H;
    try discriminate; cbn [List.length seq combine].
  - injection H as <-. left. f_equal. lia.
  - right. replace (k + S i)%nat with (S k + i)%nat by lia. now apply IH.
Qed.

Lemma dates_checked (u : time_unit) :
  forallb (fun it =>
             (start <=? snd it) && (snd it <=? stop)
             && ((snd it - start) mod ns_per_tick u =? 0)
             && (Z.abs (snd it - even_position (fst it)) <=? tolerance u)
             && (negb (fst it =? 0)%nat || (snd it =? start))
             && (negb (fst it =? n - 1)%nat || (snd it =? stop)))
          (combine (seq 0 (List.length (dates u))) (dates u)) = true
  /\ increasing (dates u) = true.
Proof. destruct u; vm_compute; split; reflexivity. Qed.

(** X1.  The dates of line 32, in either unit, as float64 arithmetic gives
    them: every instant lies in 2024 between the two end points, is a
    whole count of the unit, and is within a few nanoseconds (nanosecond
    unit) or less than a microsecond (microsecond unit) of the evenly
    spaced position; the first is exactly [start], the last exactly
    [stop], and the instants increase strictly with the row. *)
Theorem dates_spacing (u : time_unit) (i : nat) (t : Z) :
  nth_error (dates u) i = Some t ->
  start <= t <= stop
  /\ (t - start) mod ns_per_tick u = 0
  /\ Z.abs (t - even_position i) <= tolerance u
  /\ (i = 0%nat -> t = start)
  /\ (i = (n - 1)%nat -> t = stop)
  /\ (forall j t', (i < j)%nat -> nth_error (dates u) j = Some t' -> t < t').
Proof.
  intros Hi. destruct (dates_checked u) as [Hall Hinc].
  rewrite forallb_forall in Hall.
  specialize (Hall _ (nth_error_combine_seq _ 0 _ _ Hi)).
  cbn [fst snd plus] in Hall.
  repeat (apply andb_prop in Hall as [Hall ?]).
  repeat split.
  - now apply Z.leb_le.
  - now apply Z.leb_le.
  - now apply Z.eqb_eq.
  - now apply Z.leb_le.
  - intros ->. now apply Z.eqb_eq.
  - intros ->. rewrite Nat.eqb_refl in *. now apply Z.eqb_eq.
  - intros j t' Hij Hj.
    apply (sorted_nth_error (dates u) i j); auto using increasing_sorted.
Qed.

Lemma dates_spacing_witness :
  nth_error (dates unit_ns) 40 = Some 1706595135871743487
  /\ start <= 1706595135871743487 <= stop
  /\ (1706595135871743487 - start) mod ns_per_tick unit_ns = 0
  /\ Z.abs (1706595135871743487 - even_position 40) <= tolerance unit_ns
  /\ (40%nat = 0%nat -> 1706595135871743487 = start)
  /\ (40%nat = (n - 1)%nat -> 1706595135871743487 = stop)
  /\ (forall j t', (40 < j)%nat ->
                   nth_error (dates unit_ns) j = Some t' ->
                   1706595135871743487 < t').
Proof.
  split; [vm_compute; reflexivity |].
  apply (dates_spacing unit_ns 40). vm_compute. reflexivity.
Defined.

Lemma build_nth (ds : list Z) (ps : list string) (qs : list Z) (i : nat)
      (d : Z) (p : string) (q : Z) :
  nth_error ds i = Some d -> nth_error ps i = Some p ->
  nth_error qs i = Some q ->
  nth_error (build ds ps qs) i
  = Some (mkRawRow d p (Some q)
                   (match lookup prices p with Some v => v | None => 0 end)).
Proof.
  revert ds ps qs. induction i as [| i IH];
    intros [| d0 ds] [| p0 ps] [| q0 qs]; simpl; try discriminate.
  - now intros [= ->] [= ->] [= ->].
  - apply IH.
Qed.

Lemma set_nan_same (i : nat) (df : list RawRow) :
  nth_error (set_nan i df) i = option_map without_quantity (nth_error df i).
Proof.
  revert i. induction df as [| r df IH]; intros [| i]; simpl; auto.
Qed.

Lemma fold_set_nan_nth (idx : list nat) (df : list RawRow) (i : nat)
      (r : RawRow) :
  nth_error df i = Some r ->
  nth_error (fold_left (fun d j => set_nan j d) idx df) i
  = Some (if existsb (Nat.eqb i) idx then without_quantity r else r).
Proof.
  revert df r. induction idx as [| j idx IH]; intros df r Hr; simpl;
    [assumption |].
  destruct (Nat.eqb_spec i j) as [-> | Hne]; simpl.
  - rewrite (IH _ (without_quantity r)).
    + now destruct (existsb (Nat.eqb j) idx).
    + now rewrite set_nan_same, Hr.
  - apply IH. rewrite set_nan_other by congruence. exact Hr.
Qed.

Lemma df_raw_nth (u : time_unit) (w : Draws) (i : nat) :
  valid_draws w = true -> (i < n)%nat ->
  exists d p q v,
    nth_error (dates u) i = Some d
    /\ nth_error (chosen_products w) i = Some p
    /\ nth_error (quantities w) i = Some q
    /\ lookup prices p = Some v
    /\ nth_error (df_raw u w) i
       = Some (mkRawRow d p
                 (if existsb (Nat.eqb i) (missing_idx w) then None else Some q)
                 v).
Proof.
  intros Hw Hi. apply valid_draws_spec in Hw as (Hp & Hc & Hq & _).
  destruct (nth_error (dates u) i) as [d |] eqn:Ed;
    [| apply nth_error_None in Ed; rewrite dates_length in Ed; lia].
  destruct (nth_error (chosen_products w) i) as [p |] eqn:Ep;
    [| apply nth_error_None in Ep; lia].
  destruct (nth_error (quantities w) i) as [q |] eqn:Eq;
    [| apply nth_error_None in Eq; lia].
  rewrite Forall_forall in Hc.
  destruct (catalogue_price p (Hc p (nth_error_In _ _ Ep))) as [v Hv].
  exists d, p, q, v. repeat split; try assumption.
  unfold df_raw. rewrite (fold_set_nan_nth _ _ _ _ (build_nth _ _ _ _ _ _ _ Ed Ep Eq)).
  rewrite Hv. now destruct (existsb (Nat.eqb i) (missing_idx w)).
Qed.

(** X2.  Row [i] of the generated frame holds the [i]-th date, the [i]-th
    chosen product with its price from the table, and the [i]-th drawn
    quantity, unless [i] is one of the labels picked for the NaN injection:
    then, and only then, the quantity is absent. *)
Theorem df_raw_row (u : time_unit) (w : Draws) (i : nat) :
  valid_draws w = true -> (i < n)%nat ->
  exists d p q v,
    nth_error (dates u) i = Some d
    /\ nth_error (chosen_products w) i = Some p
    /\ nth_error (quantities w) i = Some q
    /\ lookup prices p = Some v
    /\ nth_error (df_raw u w) i
       = Some (mkRawRow d p
                 (if existsb (Nat.eqb i) (missing_idx w) then None else Some q)
                 v).
Proof.
  intros Hw Hi. apply valid_draws_spec in Hw as (Hp & Hc & Hq & _).
  destruct (nth_error (dates u) i) as [d |] eqn:Ed;
    [| apply nth_error_None in Ed; rewrite dates_length in Ed; lia].
  destruct (nth_error (chosen_products w) i) as [p |] eqn:Ep;
    [| apply nth_error_None in Ep; lia].
  destruct (nth_error (quantities w) i) as [q |] eqn:Eq;
    [| apply nth_error_None in Eq; lia].
  rewrite Forall_forall in Hc.
  destruct (catalogue_price p (Hc p (nth_error_In _ _ Ep))) as [v Hv].
  exists d, p, q, v. repeat split; try assumption.
  unfold df_raw. rewrite (fold_set_nan_nth _ _ _ _ (build_nth _ _ _ _ _ _ _ Ed Ep Eq)).
  rewrite Hv. now destruct (existsb (Nat.eqb i) (missing_idx w)).
Qed.

Lemma df_raw_row_witness :
  exists d p q v,
    nth_error (dates unit_ns) 30 = Some d
    /\ nth_error (chosen_products sample_draws) 30 = Some p
    /\ nth_error (quantities sample_draws) 30 = Some q
    /\ lookup prices p = Some v
    /\ nth_error (df_raw unit_ns sample_draws) 30
       = Some (mkRawRow d p
                 (if existsb (Nat.eqb 30) (missing_idx sample_draws)
                  then None else Some q) v).
Proof.
  apply df_raw_row; [vm_compute; reflexivity | unfold n; lia].
Defined.

Lemma price_bounds (p : string) (v : Z) :
  lookup prices p = Some v -> 19 <= v <= 999.
Proof.
  unfold prices. cbn [lookup].
  repeat (destruct (String.eqb _ p); [intros [= <-]; lia |]).
  discriminate.
Qed.

(** X3.  In every generated frame the product of a row is one of the ten
    catalogue names and its unit price is the price table's entry for that
    name, between 19 and 999: the lookup of line 41 never misses, and two
    rows of the same product carry the same price. *)
Theorem df_raw_prices (u : time_unit) (w : Draws) :
  valid_draws w = true ->
  Forall (fun r => In (raw_product r) products
                   /\ lookup prices (raw_product r) = Some (raw_unit_price r)
                   /\ 19 <= raw_unit_price r <= 999) (df_raw u w)
  /\ (forall r1 r2, In r1 (df_raw u w) -> In r2 (df_raw u w) ->
                    raw_product r1 = raw_product r2 ->
                    raw_unit_price r1 = raw_unit_price r2).
Proof.
  intros Hw. pose proof (df_raw_priced u w Hw) as Hpr.
  pose proof (df_raw_products u w Hw) as Hps.
  apply valid_draws_spec in Hw as (_ & Hc & _).
  rewrite Forall_forall in Hpr, Hc. split.
  - apply Forall_forall. intros r Hr. specialize (Hpr r Hr).
    split; [| split; [assumption | now apply (price_bounds (raw_product r))]].
    apply Hc. rewrite <- Hps. now apply in_map.
  - intros r1 r2 H1 H2 E. apply Hpr in H1. apply Hpr in H2.
    rewrite E in H1. congruence.
Qed.

Lemma df_raw_prices_witness :
  Forall (fun r => In (raw_product r) products
                   /\ lookup prices (raw_product r) = Some (raw_unit_price r)
                   /\ 19 <= raw_unit_price r <= 999) (df_raw unit_ns sample_draws)
  /\ (forall r1 r2, In r1 (df_raw unit_ns sample_draws) ->
                    In r2 (df_raw unit_ns sample_draws) ->
                    raw_product r1 = raw_product r2 ->
                    raw_unit_price r1 = raw_unit_price r2).
Proof.
  apply df_raw_prices. vm_compute. reflexivity.
Defined.

End GeneratorMore.

(** * Further properties of the cleaner, lines 66-77 *)

Section CleanerMore.

Import Cleaner Samples.

(** X4.  The cleaner keeps the rows in place and touches nothing but the
    quantity and the revenue: date, product and unit price of every row are
    as before, a defined quantity is only cut to its whole part, and a
    defined whole quantity is left as it is. *)
Theorem clean_keeps_rows (df df' : DataFrame) :
  clean df = Ok df' ->
  Forall2 (fun r r' =>
             date r' = date r /\ product r' = product r
             /\ unit_price r' = unit_price r
             /\ (forall q, quantity r = Some q ->
                           quantity r' = Some (inject_Z (trunc q)))
             /\ (forall z, quantity r = Some (inject_Z z) ->
                           quantity r' = Some (inject_Z z))) df df'.
Proof.
  intros H. apply clean_inv in H as [_ ->].
  generalize df at 2 as frame. intros frame.
  induction df as [| r df IH]; simpl; constructor; [| exact IH].
  clear IH. unfold revenue_row, cast_row, fill_row, set_revenue, set_quantity.
  cbn [date product unit_price quantity revenue].
  repeat split.
  - intros q ->. reflexivity.
  - intros z ->. cbn [fillna]. now rewrite trunc_inject_Z.
Qed.

Lemma clean_keeps_rows_witness :
  Forall2 (fun r r' =>
             date r' = date r /\ product r' = product r
             /\ unit_price r' = unit_price r
             /\ (forall q, quantity r = Some q ->
                           quantity r' = Some (inject_Z (trunc q)))
             /\ (forall z, quantity r = Some (inject_Z z) ->
                           quantity r' = Some (inject_Z z)))
          scenario_frame scenario_cleaned.
Proof.
  apply clean_keeps_rows. reflexivity.
Defined.

Lemma fillna_None (cell : option Q) : fillna None cell = cell.
Proof. now destruct cell. Qed.

Lemma group_quantity_fill_orphan (frame l : DataFrame) (p : string) :
  median (group_quantity frame p) = None ->
  map quantity (filter (fun r => String.eqb (product r) p)
                       (map (fill_row frame) l))
  = map quantity (filter (fun r => String.eqb (product r) p) l).
Proof.
  intros Hm. induction l as [| r l IH]; [reflexivity |].
  cbn [map filter]. change (product (fill_row frame r)) with (product r).
  destruct (String.eqb_spec (product r) p) as [E | _]; [| exact IH].
  cbn [map]. rewrite IH. f_equal.
  unfold fill_row. cbn [quantity set_quantity]. rewrite E, Hm.
  apply fillna_None.
Qed.

(** X5.  Filling twice is filling once: after the group-median fill of
    lines 66-68 a second fill changes no cell (the cells still absent
    belong to groups without any defined quantity, which stay so). *)
Theorem fill_missing_idempotent (df : DataFrame) :
  fill_missing (fill_missing df) = fill_missing df.
Proof.
  unfold fill_missing at 1. unfold fill_missing at 2 3.
  rewrite map_map. apply map_ext. intros r.
  destruct (quantity (fill_row df r)) as [q |] eqn:Hq.
  - now apply fill_row_defined with q.
  - assert (Hr : quantity r = None /\ median (group_quantity df (product r))
                                      = None).
    { unfold fill_row in Hq. cbn [quantity set_quantity] in Hq.
      destruct (quantity r); [discriminate | now split]. }
    destruct Hr as [Hr Hm].
    unfold fill_row at 1. cbn [quantity set_quantity product].
    change (product (fill_row df r)) with (product r).
    assert (Hg : group_quantity (fill_missing df) (product r)
                 = group_quantity df (product r))
      by (apply group_quantity_fill_orphan, Hm).
    rewrite Hg, Hm, Hq. unfold fill_row, set_quantity.
    cbn [date product quantity unit_price revenue fillna].
    now rewrite Hr, Hm.
Qed.

Lemma StronglySorted_nth (R : Q -> Q -> Prop) (l : list Q) (i j : nat) :
  StronglySorted R l -> (i < j)%nat -> (j < List.length l)%nat ->
  R (nth i l 0) (nth j l 0).
Proof.
  intros H. revert i j. induction H as [| a l Hs IH Ha]; intros i j Hij Hj;
    simpl in Hj; [lia |].
  destruct j as [| j]; [lia |]. destruct i as [| i]; simpl.
  - rewrite Forall_forall in Ha. apply Ha, nth_In. lia.
  - apply IH; lia.
Qed.

Lemma sorted_quantities (l : list Q) :
  StronglySorted Qle (QSort.sort l).
Proof.
  assert (Htrans : Transitive (fun a b => is_true (QOrder.leb a b))).
  { intros a b c. unfold QOrder.leb, is_true. rewrite !Qle_bool_iff.
    apply Qle_trans. }
  pose proof (QSort.StronglySorted_sort l Htrans) as H.
  induction H as [| a s _ IH Ha]; constructor; [assumption |].
  revert Ha. apply Forall_impl. intros b Hb. now apply Qle_bool_iff.
Qed.

(** The shape of [col.median()]: a middle value of the sorted defined
    values, or the mean of the two middle ones, the lower one first. *)
Lemma median_shape (col : list (option Q)) (m : Q) :
  median col = Some m ->
  In m (dropna col)
  \/ exists a b, In a (dropna col) /\ In b (dropna col) /\ a <= b
                 /\ m = (a + b) / 2.
Proof.
  unfold median. set (s := QSort.sort (dropna col)).
  assert (Hin : forall q, In q s -> In q (dropna col)).
  { intros q Hq. apply Permutation_in with s; [| assumption].
    apply Permutation_sym, QSort.Permuted_sort. }
  destruct (List.length s) as [| k] eqn:Hk; cbn [Nat.eqb]; [discriminate |].
  assert (Hmid : (S k / 2 < List.length s)%nat)
    by (rewrite Hk; apply Nat.div_lt; lia).
  destruct (Nat.odd (S k)) eqn:Hodd; intros [= <-].
  - left. apply Hin, nth_In, Hmid.
  - right. exists (nth (S k / 2 - 1) s 0), (nth (S k / 2) s 0).
    assert (Hpos : (0 < S k / 2)%nat).
    { destruct k as [| k]; [discriminate |].
      apply Nat.div_str_pos. lia. }
    repeat split.
    + apply Hin, nth_In. lia.
    + apply Hin, nth_In, Hmid.
    + apply StronglySorted_nth; [apply sorted_quantities | lia | exact Hmid].
Qed.

(** X6.  The median the fill uses lies between two defined quantities of
    the group (so within the smallest and the largest of them): no fill
    value is invented outside the data. *)
Theorem median_between (col : list (option Q)) (m : Q) :
  median col = Some m ->
  exists a b, In a (dropna col) /\ In b (dropna col) /\ a <= m <= b.
Proof.
  intros H. destruct (median_shape col m H) as [Hin | (a & b & Ha & Hb & Hab & ->)].
  - exists m, m. repeat split; try assumption; apply Qle_refl.
  - exists a, b. repeat split; try assumption.
    + apply Qle_shift_div_l; [reflexivity | lra].
    + apply Qle_shift_div_r; [reflexivity | lra].
Qed.

Lemma median_between_witness :
  exists a b,
    In a (dropna [Some 2; None; Some 5; Some 3; Some 4])
    /\ In b (dropna [Some 2; None; Some 5; Some 3; Some 4])
    /\ a <= 7 # 2 <= b.
Proof.
  apply median_between. reflexivity.
Defined.

Lemma half_integer_cases (k : Z) (m : Q) :
  (0 <= k)%Z -> m == k # 2 ->
  (m == inject_Z (trunc m) /\ round_half_up m = trunc m)
  \/ (m == inject_Z (trunc m) + (1 # 2)
      /\ round_half_up m = (trunc m + 1)%Z).
Proof.
  intros Hk Hm.
  assert (H0 : 0 <= m).
  { rewrite Hm. unfold Qle. simpl. lia. }
  rewrite (trunc_floor m H0). unfold round_half_up.
  assert (Hup : m + (1 # 2) == (k + 1) # 2).
  { rewrite Hm. unfold Qeq, Qplus. simpl. lia. }
  rewrite Hup, Hm.
  change (Qfloor (k # 2)) with (k / 2)%Z.
  change (Qfloor ((k + 1) # 2)) with ((k + 1) / 2)%Z.
  destruct (Z.eq_dec (k mod 2) 0) as [Heven | Hodd].
  - left. split.
    + unfold Qeq, inject_Z. simpl.
      pose proof (Z.div_mod k 2 ltac:(lia)). lia.
    + pose proof (Z.div_mod k 2 ltac:(lia)).
      pose proof (Z.div_mod (k + 1) 2 ltac:(lia)).
      pose proof (Z.mod_pos_bound (k + 1) 2 ltac:(lia)). lia.
  - right. pose proof (Z.mod_pos_bound k 2 ltac:(lia)).
    pose proof (Z.div_mod k 2 ltac:(lia)).
    split.
    + unfold Qeq, Qplus, inject_Z. simpl. lia.
    + pose proof (Z.div_mod (k + 1) 2 ltac:(lia)).
      pose proof (Z.mod_pos_bound (k + 1) 2 ltac:(lia)). lia.
Qed.

(** X7.  How far the integer cast of line 73 is from rounding to nearest:
    in a group whose defined quantities are whole and not negative, either
    the median is whole and the cast changes nothing (and agrees with
    round-half-up), or the median ends in one half and the cast gives the
    whole number below it, one less than round-half-up. *)
Theorem cast_of_median (col : list (option Q)) (m : Q) :
  (forall q, In q (dropna col) ->
             exists z : Z, (0 <= z)%Z /\ q == inject_Z z) ->
  median col = Some m ->
  (m == inject_Z (trunc m) /\ round_half_up m = trunc m)
  \/ (m == inject_Z (trunc m) + (1 # 2)
      /\ round_half_up m = (trunc m + 1)%Z).
Proof.
  intros Hwhole Hm.
  destruct (median_shape col m Hm) as [Hin | (a & b & Ha & Hb & _ & ->)].
  - destruct (Hwhole m Hin) as (z & Hz & E).
    apply (half_integer_cases (2 * z)); [lia |].
    rewrite E. unfold Qeq, inject_Z. cbn [Qnum Qden]. lia.
  - destruct (Hwhole a Ha) as (za & Hza & Ea).
    destruct (Hwhole b Hb) as (zb & Hzb & Eb).
    apply (half_integer_cases (za + zb)); [lia |].
    rewrite Ea, Eb. unfold Qeq, Qdiv, Qmult, Qplus, Qinv, inject_Z.
    cbn [Qnum Qden]. cbn [Qnum Qden Z.mul Pos.mul]. lia.
Qed.

Lemma cast_of_median_witness :
  ((5 # 2) == inject_Z (trunc (5 # 2))
   /\ round_half_up (5 # 2) = trunc (5 # 2))
  \/ ((5 # 2) == inject_Z (trunc (5 # 2)) + (1 # 2)
      /\ round_half_up (5 # 2) = (trunc (5 # 2) + 1)%Z).
Proof.
  apply (cast_of_median [Some 2; Some 3; None]).
  - intros q [<- | [<- | []]]; [exists 2%Z | exists 3%Z];
      split; [lia | reflexivity | lia | reflexivity].
  - vm_compute. reflexivity.
Defined.

End CleanerMore.

(** * A whole run: generate, save, load, clean (lines 30-77) *)

Section RunFacts.

Import Catalogue Cleaner Aggregator Csv Generator Run.

Lemma df_raw_absent_count (u : time_unit) (w : Draws) :
  valid_draws w = true -> absent_count (df_raw u w) = missing_size.
Proof.
  intros Hw.
  apply valid_draws_spec in Hw as (Hp & _ & Hq & _ & Hm & Hlt & Hnd).
  assert (Hlen : List.length (build (dates u) (chosen_products w) (quantities w))
                 = n) by (apply build_length; auto using dates_length).
  pose proof (build_defined (dates u) (chosen_products w) (quantities w)) as Hdef.
  unfold df_raw. rewrite fold_set_nan_count; [| assumption |].
  - now rewrite absent_count_defined.
  - intros i Hi. rewrite Forall_forall in Hlt. specialize (Hlt i Hi).
    destruct (nth_error (build (dates u) (chosen_products w) (quantities w)) i)
      as [r |] eqn:Hr.
    + exists r. split; [reflexivity |].
      rewrite Forall_forall in Hdef. eapply Hdef, nth_error_In, Hr.
    + apply nth_error_None in Hr. lia.
Qed.

Lemma missing_count_loaded (raw : list RawRow) :
  missing_count (loaded raw) = absent_count raw.
Proof.
  unfold missing_count, absent_count, loaded.
  induction raw as [| r raw IH]; [reflexivity |].
  cbn [map filter quantity]. destruct (raw_quantity r); simpl; auto.
Qed.

(** X8.  In every run the file has the header and n data lines, it loads
    back, and the loaded frame has n = 500 rows of which exactly 25 have a
    missing quantity: the counts lines 57 and 63 print. *)
Theorem load_counts (u : time_unit) (w : Draws) :
  valid_draws w = true ->
  List.length (to_csv (df_raw u w)) = S n
  /\ exists raw,
       read_csv (to_csv (df_raw u w)) = Some raw
       /\ List.length (loaded raw) = n
       /\ missing_count (loaded raw) = missing_size.
Proof.
  intros Hw. split.
  - unfold to_csv. cbn [List.length]. now rewrite length_map, df_raw_length.
  - exists (df_raw u w). split; [| split].
    + apply read_csv_to_csv, df_raw_csv_safe, Hw.
    + unfold loaded. now rewrite length_map, df_raw_length.
    + now rewrite missing_count_loaded, df_raw_absent_count.
Qed.

Lemma load_counts_witness :
  List.length (to_csv (df_raw unit_ns sample_draws)) = S n
  /\ exists raw,
       read_csv (to_csv (df_raw unit_ns sample_draws)) = Some raw
       /\ List.length (loaded raw) = n
       /\ missing_count (loaded raw) = missing_size.
Proof.
  apply load_counts. vm_compute. reflexivity.
Defined.

Lemma in_group_quantity_iff (df : DataFrame) (p : string) (q : Q) :
  In q (dropna (group_quantity df p))
  <-> exists r, In r df /\ product r = p /\ quantity r = Some q.
Proof.
  unfold group_quantity. induction df as [| r df IH]; cbn [filter map dropna].
  - split; [intros [] | intros (r & [] & _)].
  - destruct (String.eqb_spec (product r) p) as [E | NE].
    + cbn [map dropna]. destruct (quantity r) as [q0 |] eqn:Hq0;
        cbn [dropna In]; rewrite IH; split.
      * intros [<- | (r' & Hin & Hp & Hq)];
          [exists r; simpl; auto | exists r'; simpl; auto].
      * intros (r' & [<- | Hin] & Hp & Hq);
          [left; congruence | right; exists r'; auto].
      * intros (r' & Hin & Hp & Hq). exists r'; simpl; auto.
      * intros (r' & [<- | Hin] & Hp & Hq);
          [congruence | exists r'; auto].
    + rewrite IH. split.
      * intros (r' & Hin & Hp & Hq). exists r'; simpl; auto.
      * intros (r' & [<- | Hin] & Hp & Hq);
          [contradiction | exists r'; auto].
Qed.

(** The group of a product has a defined quantity in the loaded frame
    exactly when the product keeps a row outside the NaN injection. *)
Lemma group_defined_iff_kept (u : time_unit) (w : Draws) (p : string) :
  valid_draws w = true ->
  dropna (group_quantity (loaded (df_raw u w)) p) <> [] <-> kept w p = true.
Proof.
  intros Hw. unfold kept. rewrite existsb_exists. split.
  - intros Hne.
    destruct (dropna (group_quantity (loaded (df_raw u w)) p)) as [| q l] eqn:E;
      [congruence |].
    assert (Hq : In q (dropna (group_quantity (loaded (df_raw u w)) p)))
      by (rewrite E; now left).
    apply in_group_quantity_iff in Hq as (r & Hin & Hp & Hq).
    unfold loaded in Hin. apply in_map_iff in Hin as (raw & <- & Hraw).
    apply In_nth_error in Hraw as [i Hi].
    assert (Hlt : (i < n)%nat).
    { rewrite <- (df_raw_length u w Hw). apply nth_error_Some. congruence. }
    destruct (df_raw_nth u w i Hw Hlt) as (d & p' & q' & v & _ & Ep & _ & _ & Er).
    rewrite Hi in Er. injection Er as ->. cbn [product quantity] in Hp, Hq.
    cbn [raw_product raw_quantity] in Hp, Hq. subst p'.
    exists i. split; [apply in_seq; lia |].
    rewrite (nth_error_nth _ _ _ Ep), String.eqb_refl.
    now destruct (existsb (Nat.eqb i) (missing_idx w)).
  - intros (i & Hi & Hk). apply in_seq in Hi.
    apply andb_prop in Hk as [Hp Hm]. apply String.eqb_eq in Hp.
    apply negb_true_iff in Hm.
    destruct (df_raw_nth u w i Hw ltac:(lia))
      as (d & p' & q' & v & _ & Ep & _ & _ & Er).
    rewrite (nth_error_nth _ _ _ Ep) in Hp. subst p'. rewrite Hm in Er.
    assert (Hin : In (inject_Z q')
                     (dropna (group_quantity (loaded (df_raw u w)) p))).
    { apply in_group_quantity_iff.
      exists (load_row (mkRawRow d p (Some q') v)).
      split; [| split; reflexivity].
      unfold loaded. apply (in_map load_row). eapply nth_error_In, Er. }
    intros E. rewrite E in Hin. contradiction.
Qed.

Lemma clean_raises_orphan (df : DataFrame) (r : Row) :
  In r df -> quantity r = None ->
  dropna (group_quantity df (product r)) = [] ->
  clean df = Raise IntCastingNaNError.
Proof.
  intros Hin Hq Hnil. unfold clean. rewrite astype_int_nan; [reflexivity |].
  apply Exists_exists. exists (fill_row df r). split; [now apply in_map |].
  unfold fill_row. cbn [quantity set_quantity]. rewrite Hq. cbn [fillna].
  now apply median_none.
Qed.

(** X9.  A run fails when the draws leave some product without a row
    outside the NaN injection: every quantity of that product is absent,
    the fill has nothing to take a median of, and the integer cast of line
    73 raises.  Such draws exist ([unlucky_draws]), so the failure can
    happen with the script's own generator. *)
Theorem run_fails_when_product_lost (u : time_unit) (w : Draws) :
  valid_draws w = true -> every_product_kept w = false ->
  clean (loaded (df_raw u w)) = Raise IntCastingNaNError.
Proof.
  intros Hw Hlost. unfold every_product_kept in Hlost.
  assert (Hp : exists p, In p (chosen_products w) /\ kept w p = false).
  { clear Hw. induction (chosen_products w) as [| p ps IH];
      [discriminate |].
    cbn [forallb] in Hlost. destruct (kept w p) eqn:Hk.
    - destruct (IH Hlost) as (p' & Hin & Hk'). exists p'. simpl; auto.
    - exists p. simpl; auto. }
  destruct Hp as (p & Hin & Hk).
  apply In_nth_error in Hin as [i Hi].
  assert (Hlt : (i < n)%nat).
  { pose proof Hw as Hv. apply valid_draws_spec in Hv as (Hlen & _).
    rewrite <- Hlen. apply nth_error_Some. congruence. }
  destruct (df_raw_nth u w i Hw Hlt) as (d & p' & q & v & _ & Ep & _ & _ & Er).
  rewrite Hi in Ep. injection Ep as <-.
  assert (Hnil : dropna (group_quantity (loaded (df_raw u w)) p) = []).
  { destruct (dropna (group_quantity (loaded (df_raw u w)) p)) eqn:E;
      [reflexivity |].
    assert (kept w p = true); [| congruence].
    apply (group_defined_iff_kept u w p Hw). rewrite E. discriminate. }
  assert (Hmiss : existsb (Nat.eqb i) (missing_idx w) = true).
  { destruct (existsb (Nat.eqb i) (missing_idx w)) eqn:E; [reflexivity |].
    assert (kept w p = true); [| congruence].
    unfold kept. apply existsb_exists. exists i.
    split; [apply in_seq; lia |].
    now rewrite (nth_error_nth _ _ _ Hi), String.eqb_refl, E. }
  rewrite Hmiss in Er.
  apply (clean_raises_orphan _ (load_row (mkRawRow d p None v))).
  - unfold loaded. apply (in_map load_row). eapply nth_error_In, Er.
  - reflexivity.
  - exact Hnil.
Qed.

Lemma run_fails_when_product_lost_witness :
  valid_draws unlucky_draws = true
  /\ clean (loaded (df_raw unit_ns unlucky_draws)) = Raise IntCastingNaNError.
Proof.
  split; [vm_compute; reflexivity |].
  apply run_fails_when_product_lost; vm_compute; reflexivity.
Defined.

Lemma sumQ_bounds (l : list Q) (lo hi : Q) :
  Forall (fun x => lo <= x <= hi) l ->
  inject_Z (Z.of_nat (List.length l)) * lo <= sumQ l
  /\ sumQ l <= inject_Z (Z.of_nat (List.length l)) * hi.
Proof.
  induction 1 as [| x l [Hlo Hhi] _ [IH1 IH2]].
  - cbn [List.length sumQ fold_right Z.of_nat].
    change (inject_Z 0) with 0. split; lra.
  - cbn [List.length sumQ fold_right]. fold (sumQ l).
    rewrite Nat2Z.inj_succ. unfold Z.succ. rewrite inject_Z_plus.
    change (inject_Z 1) with 1. split; lra.
Qed.

(** X10.  A run succeeds when every drawn product keeps a row outside the
    NaN injection: the cleaner returns n rows, each with a whole quantity
    of [1, 5] and the revenue quantity times price-table price, a whole
    amount between 19 and 4995; the total revenue is then between 9500 and
    2497500. *)
Theorem run_succeeds_when_products_kept (u : time_unit) (w : Draws) :
  valid_draws w = true -> every_product_kept w = true ->
  exists df',
    clean (loaded (df_raw u w)) = Ok df'
    /\ List.length df' = n
    /\ Forall (fun r => exists z v : Z,
                   quantity r = Some (inject_Z z) /\ (1 <= z <= 5)%Z
                   /\ lookup prices (product r) = Some v
                   /\ revenue r = Some (inject_Z z * inject_Z v)
                   /\ (19 <= z * v <= 4995)%Z) df'
    /\ 9500 <= total_revenue df' <= 2497500.
Proof.
  intros Hw Hkept.
  set (df := loaded (df_raw u w)).
  assert (Hload : forall r, In r df ->
            exists raw, In raw (df_raw u w) /\ r = load_row raw).
  { intros r Hr. unfold df, loaded in Hr.
    apply in_map_iff in Hr as (raw & <- & Hraw). now exists raw. }
  assert (Hgroups : forall r, In r df ->
            dropna (group_quantity df (product r)) <> []).
  { intros r Hr. apply (group_defined_iff_kept u w _ Hw).
    unfold every_product_kept in Hkept. rewrite forallb_forall in Hkept.
    apply Hkept. destruct (Hload r Hr) as (raw & Hraw & ->).
    rewrite <- (df_raw_products u w Hw). now apply (in_map raw_product). }
  pose proof (fill_missing_defined df Hgroups) as Hall.
  assert (Hrange : Forall (fun r => forall q, quantity r = Some q ->
                                              1 <= q <= 5) df)
    by apply (loaded_range u w Hw).
  pose proof (df_raw_priced u w Hw) as Hpriced.
  rewrite Forall_forall in Hrange, Hpriced.
  assert (Hrows : Forall (fun r => exists z v : Z,
                   quantity r = Some (inject_Z z) /\ (1 <= z <= 5)%Z
                   /\ lookup prices (product r) = Some v
                   /\ revenue r = Some (inject_Z z * inject_Z v)
                   /\ (19 <= z * v <= 4995)%Z)
            (map (fun r => revenue_row (cast_row (fill_row df r))) df)).
  { unfold fill_missing in Hall. rewrite Forall_map in Hall.
    rewrite Forall_map. rewrite Forall_forall in Hall |- *.
    intros r Hr. specialize (Hall r Hr).
    destruct (quantity (fill_row df r)) as [q |] eqn:Hq; [| congruence].
    assert (Hq15 : inject_Z 1 <= q <= inject_Z 5).
    { unfold fill_row in Hq. cbn [quantity set_quantity] in Hq.
      destruct (quantity r) as [q0 |] eqn:Hq0; cbn [fillna] in Hq.
      - injection Hq as <-. now apply (Hrange r).
      - apply (median_bounds (group_quantity df (product r))); [| exact Hq].
        intros q1 Hq1. apply in_group_quantity in Hq1 as (r1 & Hin1 & Hr1).
        now apply (Hrange r1). }
    pose proof (trunc_bounds q 1 5 ltac:(lia) Hq15) as Hz.
    destruct (Hload r Hr) as (raw & Hraw & ->).
    pose proof (Hpriced raw Hraw) as Hp.
    pose proof (price_bounds _ _ Hp) as Hv.
    exists (trunc q), (raw_unit_price raw).
    unfold revenue_row, cast_row, set_revenue, set_quantity.
    cbn [quantity revenue unit_price product]. rewrite Hq.
    change (unit_price (fill_row df (load_row raw)))
      with (inject_Z (raw_unit_price raw)).
    change (product (fill_row df (load_row raw))) with (raw_product raw).
    repeat split; try assumption; try lia; nia. }
  eexists. split; [apply clean_defined, Hall |].
  assert (Hn : List.length df = n)
    by (unfold df, loaded; now rewrite length_map, df_raw_length).
  split; [now rewrite length_map |].
  split; [exact Hrows |].
  unfold total_revenue.
  assert (Hvals : Forall (fun x => 19 <= x <= 4995)
            (map revenue_value
               (map (fun r => revenue_row (cast_row (fill_row df r))) df))).
  { apply Forall_map. revert Hrows. apply Forall_impl.
    intros r (z & v & _ & _ & _ & Hrev & Hb). unfold revenue_value.
    rewrite Hrev, <- inject_Z_mult.
    change 19 with (inject_Z 19). change 4995 with (inject_Z 4995).
    rewrite <- !Zle_Qle. exact Hb. }
  apply sumQ_bounds in Hvals. rewrite !length_map, Hn in Hvals.
  change (inject_Z (Z.of_nat n)) with 500 in Hvals.
  destruct Hvals as [H1 H2]. split; lra.
Qed.

Lemma run_succeeds_when_products_kept_witness :
  exists df',
    clean (loaded (df_raw unit_ns sample_draws)) = Ok df'
    /\ List.length df' = n
    /\ Forall (fun r => exists z v : Z,
                   quantity r = Some (inject_Z z) /\ (1 <= z <= 5)%Z
                   /\ lookup prices (product r) = Some v
                   /\ revenue r = Some (inject_Z z * inject_Z v)
                   /\ (19 <= z * v <= 4995)%Z) df'
    /\ 9500 <= total_revenue df' <= 2497500.
Proof.
  apply run_succeeds_when_products_kept; vm_compute; reflexivity.
Defined.

End RunFacts.

(** * Further properties of the analysis stage, lines 83-104 *)

Section AnalysisMore.

Import Cleaner Aggregator Csv Generator Report Samples.

Lemma groupby_sum_keys (K : Type) (eq_dec : forall a b : K, {a = b} + {a <> b})
      (sort : list K -> list K) (key : Row -> K) (df : DataFrame) :
  map fst (groupby_sum K eq_dec sort key df) = group_keys K eq_dec sort key df.
Proof.
  unfold groupby_sum. rewrite map_map. cbn [fst]. apply map_id.
Qed.

Lemma sorted_le_NoDup_lt (l : list Z) :
  StronglySorted Z.le l -> NoDup l -> StronglySorted Z.lt l.
Proof.
  induction 1 as [| a l Hs IH Ha]; intros Hnd; constructor.
  - apply IH. now inversion Hnd.
  - inversion Hnd as [| ? ? Hnotin _]; subst.
    rewrite Forall_forall in Ha |- *. intros b Hb.
    specialize (Ha b Hb). assert (a <> b) by congruence. lia.
Qed.

Lemma sorted_months (l : list Z) : StronglySorted Z.le (ZSort.sort l).
Proof.
  assert (Htrans : Transitive (fun a b => is_true (ZOrder.leb a b))).
  { intros a b c. unfold ZOrder.leb, is_true. rewrite !Z.leb_le. lia. }
  pose proof (ZSort.StronglySorted_sort l Htrans) as H.
  induction H as [| a s _ IH Ha]; constructor; [assumption |].
  revert Ha. apply Forall_impl. intros b Hb. now apply Z.leb_le.
Qed.

(** X11.  The monthly table has exactly the months in which some row falls,
    each once, in chronological (strictly increasing) order, and beside
    each month the sum of the revenues of the rows of that month. *)
Theorem monthly_revenue_months (df : DataFrame) :
  StronglySorted Z.lt (map fst (monthly_revenue df))
  /\ (forall m, In m (map fst (monthly_revenue df))
                <-> exists r, In r df /\ month r = m)
  /\ Forall (fun e => snd e = group_sum Z Z.eq_dec month df (fst e))
            (monthly_revenue df).
Proof.
  unfold monthly_revenue. rewrite groupby_sum_keys. split; [| split].
  - apply sorted_le_NoDup_lt; [apply sorted_months |].
    apply group_keys_NoDup, ZSort.Permuted_sort.
  - intros m. unfold group_keys. split.
    + intros H.
      apply (Permutation_in _ (Permutation_sym (ZSort.Permuted_sort _))) in H.
      apply nodup_In, in_map_iff in H as (r & E & Hr). now exists r.
    + intros (r & Hr & <-). apply group_keys_cover; [| assumption].
      apply ZSort.Permuted_sort.
  - unfold groupby_sum. apply Forall_map, Forall_forall. reflexivity.
Qed.

Lemma clean_dates (df df' : DataFrame) :
  clean df = Ok df' -> map date df' = map date df.
Proof.
  intros H. apply clean_inv in H as [_ ->]. rewrite map_map.
  apply map_ext. reflexivity.
Qed.

Lemma loaded_dates (raw : list RawRow) :
  map date (loaded raw) = map raw_date raw.
Proof. unfold loaded. rewrite map_map. reflexivity. Qed.

(** X12.  In every run that gets through the cleaner the monthly table has
    twelve rows, labelled Jan to Dec in calendar order: the 500 dates
    spread over all of 2024, whatever was drawn. *)
Theorem run_month_labels (u : time_unit) (w : Draws) (df' : DataFrame) :
  valid_draws w = true ->
  clean (loaded (df_raw u w)) = Ok df' ->
  map fst (monthly_table df')
  = ["Jan"; "Feb"; "Mar"; "Apr"; "May"; "Jun";
     "Jul"; "Aug"; "Sep"; "Oct"; "Nov"; "Dec"]%string.
Proof.
  intros Hw Hc. unfold monthly_table. rewrite map_map. cbn [fst].
  rewrite <- (map_map fst month_label). unfold monthly_revenue.
  rewrite groupby_sum_keys. unfold group_keys.
  assert (Hm : map month df' = map Calendar.to_period_M (dates u)).
  { unfold month. rewrite <- (map_map date Calendar.to_period_M).
    now rewrite (clean_dates _ _ Hc), loaded_dates, (df_raw_dates u w Hw). }
  rewrite Hm. destruct u; vm_compute; reflexivity.
Qed.

Lemma run_month_labels_witness :
  exists df',
    clean (loaded (df_raw unit_ns sample_draws)) = Ok df'
    /\ map fst (monthly_table df')
       = ["Jan"; "Feb"; "Mar"; "Apr"; "May"; "Jun";
          "Jul"; "Aug"; "Sep"; "Oct"; "Nov"; "Dec"]%string.
Proof.
  destruct (clean (loaded (df_raw unit_ns sample_draws))) as [df' | e] eqn:E.
  - exists df'. split; [reflexivity |].
    apply (run_month_labels unit_ns sample_draws); [vm_compute; reflexivity | exact E].
  - vm_compute in E. discriminate.
Defined.

Lemma StronglySorted_app_inv {A : Type} (R : A -> A -> Prop)
      (l1 l2 : list A) (x y : A) :
  StronglySorted R (l1 ++ l2) -> In x l1 -> In y l2 -> R x y.
Proof.
  induction l1 as [| a l1 IH]; simpl; [contradiction |].
  intros H [<- | Hx] Hy; inversion H as [| ? ? Hs Ha]; subst.
  - rewrite Forall_forall in Ha. apply Ha, in_or_app. now right.
  - now apply IH.
Qed.

Lemma NoDup_firstn {A : Type} (k : nat) (l : list A) :
  NoDup l -> NoDup (firstn k l).
Proof.
  intros H. rewrite <- (firstn_skipn k l) in H.
  now apply NoDup_app_remove_r in H.
Qed.

Lemma In_firstn {A : Type} (k : nat) (l : list A) (x : A) :
  In x (firstn k l) -> In x l.
Proof.
  intros H. rewrite <- (firstn_skipn k l). apply in_or_app. now left.
Qed.

(** X13.  The ranking names each product at most once, every entry is a
    product present in the frame with the sum of its revenues, and no
    product left out of the ranking has a larger sum than one in it. *)
Theorem top_products_best (df : DataFrame) :
  NoDup (map fst (top_products df))
  /\ (forall p v, In (p, v) (top_products df) ->
        In p (distinct_products df)
        /\ v = group_sum string string_dec product df p)
  /\ (forall p, In p (distinct_products df) ->
        ~ In p (map fst (top_products df)) ->
        forall q v, In (q, v) (top_products df) ->
                    group_sum string string_dec product df p <= v).
Proof.
  unfold top_products, head.
  set (G := groupby_sum string string_dec StringSort.sort product df).
  set (L := sort_values_desc G).
  assert (Hperm : Permutation G L) by apply sort_values_desc_perm.
  assert (Hkeys : forall p, In p (map fst G) <-> In p (distinct_products df)).
  { intros p. unfold G. rewrite groupby_sum_keys. unfold group_keys.
    split; intros H.
    - apply (Permutation_in _
               (Permutation_sym (StringSort.Permuted_sort _))) in H.
      exact H.
    - apply (Permutation_in _ (StringSort.Permuted_sort _)). exact H. }
  assert (HG : forall p v, In (p, v) G ->
                           v = group_sum string string_dec product df p).
  { intros p v H. unfold G, groupby_sum in H.
    apply in_map_iff in H as (k & [= <- <-] & _). reflexivity. }
  split; [| split].
  - rewrite <- firstn_map. apply NoDup_firstn.
    apply (Permutation_NoDup (Permutation_map fst Hperm)).
    unfold G. rewrite groupby_sum_keys.
    apply group_keys_NoDup, StringSort.Permuted_sort.
  - intros p v H. apply In_firstn in H.
    apply (Permutation_in _ (Permutation_sym Hperm)) in H.
    split; [| now apply HG].
    apply Hkeys. now apply (in_map fst) in H.
  - intros p Hp Hout q v Hq.
    assert (HinG : In (p, group_sum string string_dec product df p) G).
    { apply Hkeys in Hp. apply in_map_iff in Hp as ([p' v'] & E & Hin).
      cbn [fst] in E. subst p'. now rewrite <- (HG p v' Hin). }
    apply (Permutation_in _ Hperm) in HinG.
    rewrite <- (firstn_skipn 5 L) in HinG.
    apply in_app_or in HinG as [Hfirst | Hrest].
    + exfalso. apply Hout. now apply (in_map fst) in Hfirst.
    + pose proof (ranking_sorted G) as Hs. fold L in Hs.
      rewrite <- (firstn_skipn 5 L) in Hs.
      apply (StronglySorted_app_inv _ _ _ _ _ Hs Hq Hrest).
Qed.

Lemma sumQ_app (l1 l2 : list Q) : sumQ (l1 ++ l2) == sumQ l1 + sumQ l2.
Proof.
  induction l1 as [| a l1 IH]; simpl; [ring |]. rewrite IH. ring.
Qed.

Lemma sumQ_perm (l1 l2 : list Q) :
  Permutation l1 l2 -> sumQ l1 == sumQ l2.
Proof.
  induction 1 as [| a l1 l2 _ IH | a b l | l1 l2 l3 _ IH1 _ IH2]; simpl.
  - reflexivity.
  - now rewrite IH.
  - ring.
  - now rewrite IH1.
Qed.

Lemma sumQ_nonneg (l : list Q) : Forall (fun x => 0 <= x) l -> 0 <= sumQ l.
Proof.
  induction 1 as [| x l Hx _ IH]; simpl; [apply Qle_refl | lra].
Qed.

(** X14.  When no revenue is negative the sums shown in the ranking add
    up to no more than the total revenue, and to exactly the total when
    the frame has at most five distinct products (nothing is cut off). *)
Theorem top_products_share (df : DataFrame) :
  Forall (fun r => 0 <= revenue_value r) df ->
  sumQ (map snd (top_products df)) <= total_revenue df
  /\ ((List.length (distinct_products df) <= 5)%nat ->
      sumQ (map snd (top_products df)) == total_revenue df).
Proof.
  intros Hpos. unfold top_products, head.
  set (G := groupby_sum string string_dec StringSort.sort product df).
  set (L := sort_values_desc G).
  assert (Hperm : Permutation G L) by apply sort_values_desc_perm.
  assert (Htotal : sumQ (map snd L) == total_revenue df).
  { rewrite <- (sumQ_perm _ _ (Permutation_map snd Hperm)).
    apply groupby_sum_total, StringSort.Permuted_sort. }
  assert (Hsplit : sumQ (map snd L)
                   == sumQ (map snd (firstn 5 L)) + sumQ (map snd (skipn 5 L))).
  { rewrite <- (firstn_skipn 5 L) at 1. rewrite map_app. apply sumQ_app. }
  assert (Hrest : 0 <= sumQ (map snd (skipn 5 L))).
  { apply sumQ_nonneg, Forall_map, Forall_forall. intros [p v] Hin.
    assert (HinG : In (p, v) G).
    { apply (Permutation_in _ (Permutation_sym Hperm)).
      rewrite <- (firstn_skipn 5 L). apply in_or_app. now right. }
    unfold G, groupby_sum in HinG.
    apply in_map_iff in HinG as (k & [= <- <-] & _). cbn [snd].
    unfold group_sum. apply sumQ_nonneg, Forall_map, Forall_forall.
    intros r Hr. apply filter_In in Hr as [Hr _].
    rewrite Forall_forall in Hpos. now apply Hpos. }
  split.
  - rewrite <- Htotal, Hsplit. lra.
  - intros Hfew. rewrite firstn_all2; [exact Htotal |].
    rewrite <- (Permutation_length Hperm). unfold G.
    rewrite groupby_sum_length; [exact Hfew | apply StringSort.Permuted_sort].
Qed.

Lemma top_products_share_witness :
  sumQ (map snd (top_products scenario_cleaned))
  <= total_revenue scenario_cleaned
  /\ ((List.length (distinct_products scenario_cleaned) <= 5)%nat ->
      sumQ (map snd (top_products scenario_cleaned))
      == total_revenue scenario_cleaned).
Proof.
  apply top_products_share.
  repeat constructor; vm_compute; discriminate.
Defined.

End AnalysisMore.

(** * The labels of amounts, lines 84 and 128-161 *)

Section ReportFacts.

Import Csv Report.
#[local] Open Scope string_scope.

Lemma group3_filter (ds : list ascii) :
  filter (fun c => negb (Ascii.eqb c ",")) (group3 ds)
  = filter (fun c => negb (Ascii.eqb c ",")) ds.
Proof.
  assert (H : forall k ds, (List.length ds <= k)%nat ->
            filter (fun c => negb (Ascii.eqb c ",")) (group3 ds)
            = filter (fun c => negb (Ascii.eqb c ",")) ds).
  { clear ds. induction k as [| k IH]; intros ds Hk.
    - destruct ds; [reflexivity | simpl in Hk; lia].
    - destruct ds as [| a [| b [| c [| d rest]]]]; try reflexivity.
      change (group3 (a :: b :: c :: d :: rest))
        with (a :: b :: c :: ","%char :: group3 (d :: rest)).
      cbn [List.length] in Hk.
      assert (Hrest : filter (fun c => negb (Ascii.eqb c ","))
                             (group3 (d :: rest))
                      = filter (fun c => negb (Ascii.eqb c ",")) (d :: rest))
        by (apply IH; simpl; lia).
      set (tail := d :: rest) in *. set (g := group3 tail) in *.
      cbn [filter]. rewrite Hrest. reflexivity. }
  apply (H (List.length ds)). lia.
Qed.

Lemma filter_all_chars (P : ascii -> bool) (s : string) :
  all_chars P s = true ->
  filter P (list_ascii_of_string s) = list_ascii_of_string s.
Proof.
  induction s as [| c s IH]; simpl; [reflexivity |].
  intros H. apply andb_prop in H as [Hc Hs]. now rewrite Hc, IH.
Qed.

Lemma remove_commas_group_digits (s : string) :
  all_chars (not_char ",") s = true -> remove_commas (group_digits s) = s.
Proof.
  intros H. unfold remove_commas, group_digits.
  rewrite list_ascii_of_string_of_list_ascii, filter_rev, group3_filter.
  rewrite filter_rev, rev_involutive.
  change (fun c => negb (Ascii.eqb c ",")) with (not_char ",").
  rewrite (filter_all_chars (not_char ",") s H).
  apply string_of_list_ascii_of_string.
Qed.

Lemma remove_commas_cons (c : ascii) (s : string) :
  Ascii.eqb c "," = false ->
  remove_commas (String c s) = String c (remove_commas s).
Proof. intros H. unfold remove_commas. simpl. now rewrite H. Qed.

Lemma remove_commas_thousands (z : Z) :
  remove_commas (thousands z) = string_of_Z z.
Proof.
  unfold thousands.
  pose proof (string_of_Z_without "," z eq_refl) as H.
  destruct (string_of_Z z) as [| c ds]; [reflexivity |].
  destruct (Ascii.eqb_spec c "-") as [-> | _].
  - cbn [all_chars] in H. apply andb_prop in H as [_ H].
    rewrite remove_commas_cons by reflexivity.
    now rewrite remove_commas_group_digits.
  - now apply remove_commas_group_digits.
Qed.

Lemma remove_commas_app (a b : string) :
  remove_commas (a ++ b) = remove_commas a ++ remove_commas b.
Proof.
  unfold remove_commas. induction a as [| c a IH]; simpl; [reflexivity |].
  destruct (negb (Ascii.eqb c ",")); simpl; now rewrite IH.
Qed.

Lemma split_at_dot_none (s : string) :
  all_chars (not_char ".") s = true -> split_at_dot s = (s, None).
Proof.
  induction s as [| c s IH]; simpl; [reflexivity |].
  intros H. apply andb_prop in H as [Hc Hs].
  unfold not_char in Hc. apply negb_true_iff in Hc.
  now rewrite Hc, (IH Hs).
Qed.

(** X15.  The label of a whole amount reads back as the amount: dropping
    the dollar sign and the thousands commas from [f"${x:,.0f}"] or
    [f"${x:,.2f}"] and reading the number gives [x] again, so the console
    total and the bar annotations of the charts show the computed sums. *)
Theorem currency_reads_back (x : Z) :
  read_currency (currency0 x) = Some x
  /\ read_currency (currency2 x) = Some x.
Proof.
  unfold read_currency, currency0, currency2. cbn [append Ascii.eqb Bool.eqb].
  split.
  - rewrite remove_commas_thousands. unfold whole_float_of_string.
    rewrite split_at_dot_none by now apply string_of_Z_without.
    apply Z_of_string_of_Z.
  - rewrite remove_commas_app, remove_commas_thousands.
    change (remove_commas ".00") with (String "." "00").
    unfold whole_float_of_string.
    rewrite split_at_dot_app by now apply string_of_Z_without.
    cbn [all_zero Ascii.eqb Bool.eqb andb]. apply Z_of_string_of_Z.
Qed.

(** How the labels look. *)
Example currency_samples :
  currency2 200 = "$200.00"
  /\ currency0 1234567 = "$1,234,567"
  /\ currency0 999 = "$999"
  /\ currency0 1000 = "$1,000"
  /\ currency2 0 = "$0.00".
Proof. repeat split. Qed.

End ReportFacts.

(** * The file and any dates of 2024 *)

Section FileMore.

Import Calendar Csv Generator.
#[local] Open Scope Z_scope.

(** X16.  Any frame of catalogue products whose instants fall in 2024
    survives the file unchanged, whatever the instants, the quantities
    (absent or whole) and the prices are: the round trip does not depend
    on the exact nanoseconds [date_range] produces. *)
Theorem file_round_trip_2024 (df : list RawRow) :
  Forall (fun r => start <= raw_date r < stop + ns_per_day
                   /\ In (raw_product r) Catalogue.products) df ->
  read_csv (to_csv df) = Some df.
Proof.
  intros H. apply read_csv_to_csv_2024. revert H. apply Forall_impl.
  intros r [Hd Hp]. split; [| exact Hp].
  unfold start, stop in Hd. unfold first_day, last_day. lia.
Qed.

Lemma file_round_trip_2024_witness :
  read_csv (to_csv [mkRawRow (start + 1) "Laptop" None 999;
                    mkRawRow (stop + 5000) "Webcam" (Some (-2)) 0])
  = Some [mkRawRow (start + 1) "Laptop" None 999;
          mkRawRow (stop + 5000) "Webcam" (Some (-2)) 0].
Proof.
  apply file_round_trip_2024.
  repeat (apply Forall_cons;
          [split;
           [split; [vm_compute; discriminate | vm_compute; reflexivity]
           | cbn [In Catalogue.products raw_product];
             repeat (first [left; reflexivity | right])] |]).
  apply Forall_nil.
Defined.

End FileMore.
